(** * BankAccount: a shallow embedding of [bank_account.py]

    The class [BankAccount] keeps a balance (a Python [float], that is an
    IEEE-754 binary64 number), validates deposits and withdrawals, and
    publishes a notification when the updated balance is below
    [LOW_BALANCE_LEVEL] or above [LARGE_TRANSACTION_THRESHOLD].

    Python floats are Rocq's primitive binary64 floats; the text that the
    f-strings and [str.format] produce is computed from the exact binary
    value of the float, as the interpreter does.

    A method is a statement over the account it is called on: it returns
    or raises, and leaves a state behind in either case. What is left out:
    the output of [print]; listeners that raise while they are notified;
    strings with characters beyond ASCII as amounts. *)

From Stdlib Require Import ZArith List String Ascii Bool Lia.
From Stdlib Require Import Floats DecimalString.
Import ListNotations.

Set Warnings "-inexact-float".

Local Open Scope string_scope.
Local Open Scope Z_scope.

(** ** Decimal text of integers and floats *)

Module Text.

(** [str(n)] of a Python [int]: a minus sign and the decimal digits. *)
Definition of_Z (n : Z) : string := NilZero.string_of_int (Z.to_int n).

(** [n] written with at least [w] digits, zero-padded on the left. *)
Definition pad_left (w : nat) (s : string) : string :=
  string_of_list_ascii
    (repeat "0"%char (w - String.length s) ++ list_ascii_of_string s).

(** The thousands separator of the [","] format option: a comma before
    every group of three digits, counted from the right. *)
Fixpoint group_rev (n : nat) (ds : list ascii) : list ascii :=
  match ds with
  | [] => []
  | d :: rest =>
      match n, rest with
      | S (S O), _ :: _ => d :: ","%char :: group_rev 0 rest
      | _, _ => d :: group_rev (S n) rest
      end
  end.

Definition group_thousands (digits : string) : string :=
  string_of_list_ascii
    (rev (group_rev 0 (rev (list_ascii_of_string digits)))).

(** [num / den] rounded to the nearest integer, ties to even
    ([den] positive, [num] not negative). *)
Definition div_half_even (num den : Z) : Z :=
  let q := num / den in
  let r := num mod den in
  match 2 * r ?= den with
  | Lt => q
  | Gt => q + 1
  | Eq => if Z.even q then q else q + 1
  end.

Definition sign_text (s : bool) : string := if s then "-" else "".

(** The magnitude [m * 2^e] scaled by [10^p] and rounded to an integer. *)
Definition scaled_round (m : positive) (e : Z) (p : Z) : Z :=
  if 0 <=? e then Zpos m * 2 ^ e * 10 ^ p
  else div_half_even (Zpos m * 10 ^ p) (2 ^ (- e)).

(** [format(f, ",.2f")]: the exact value rounded half-even to two
    decimals, the integer part grouped in thousands. *)
Definition format_comma_2f (f : float) : string :=
  match Prim2SF f with
  | S754_nan => "nan"
  | S754_infinity s => sign_text s ++ "inf"
  | S754_zero s => sign_text s ++ "0.00"
  | S754_finite s m e =>
      let n := scaled_round m e 2 in
      sign_text s ++ group_thousands (of_Z (n / 100)) ++ "."
        ++ pad_left 2 (of_Z (n mod 100))
  end.

(** *** [repr] of a float: the shortest decimal that reads back as it *)

(** [a * 2^ea * 10^ka ?= b * 2^eb * 10^kb] on exact integers. *)
Definition cmp_scaled (a ea ka b eb kb : Z) : comparison :=
  let e2 := Z.min ea eb in
  let e10 := Z.min ka kb in
  (a * 2 ^ (ea - e2) * 10 ^ (ka - e10)) ?= (b * 2 ^ (eb - e2) * 10 ^ (kb - e10)).

(** The decimal exponent [t] with [10^(t-1) <= m * 2^e < 10^t], found
    around the estimate given by the binary exponent. *)
Definition decimal_point (m : positive) (e : Z) : Z :=
  let g := ((Z.log2 (Zpos m) + e) * 30103) / 100000 in
  let below t := match cmp_scaled (Zpos m) e 0 1 0 t with Lt => true | _ => false end in
  if below (g - 1) then g - 1
  else if below g then g
  else if below (g + 1) then g + 1
  else g + 2.

(** Whether the decimal [d * 10^k] rounds (to nearest, ties to even) to
    the float [m * 2^e]: it lies between the midpoints to the neighbouring
    floats, the midpoints themselves being taken when [m] is even. The
    lower neighbour is half as far at the bottom of a binade. *)
Definition reads_back (m : positive) (e : Z) (d k : Z) : bool :=
  let low_gap := if (Zpos m =? 2 ^ 52) && (-1074 <? e) then 1 else 2 in
  let lo := cmp_scaled (4 * Zpos m - low_gap) (e - 2) 0 d 0 k in
  let hi := cmp_scaled d 0 k (4 * Zpos m + 2) (e - 2) 0 in
  let edge := Z.even (Zpos m) in
  match lo, hi with
  | Lt, Lt => true
  | Eq, Lt | Lt, Eq => edge
  | _, _ => false
  end.

(** The two decimals of [n] digits around [m * 2^e] (the value lies in
    [10^(t-1), 10^t)), the nearer one first (ties: the even one), each
    with the exponent [t - n] of its last digit. *)
Definition around (m : positive) (e : Z) (t : Z) (n : Z) : (Z * Z) * (Z * Z) :=
  let k := t - n in
  let num := Zpos m * 2 ^ (Z.max e 0) * 10 ^ (Z.max (- k) 0) in
  let den := 2 ^ (Z.max (- e) 0) * 10 ^ (Z.max k 0) in
  let lo := num / den in
  let hi := lo + 1 in
  let lo_first :=
    match 2 * num ?= (2 * lo + 1) * den with
    | Lt => true
    | Gt => false
    | Eq => Z.even lo
    end in
  if lo_first then ((lo, k), (hi, k)) else ((hi, k), (lo, k)).

(** The shortest decimal that reads back as [m * 2^e], and among those
    the nearest: [n] digits are tried for [n] growing; seventeen digits
    always suffice for a binary64 float. *)
Fixpoint shortest_from (fuel : nat) (m : positive) (e t n : Z) : Z * Z :=
  let '((d1, k1), (d2, k2)) := around m e t n in
  match fuel with
  | O => (d1, k1)
  | S fuel' =>
      if reads_back m e d1 k1 then (d1, k1)
      else if reads_back m e d2 k2 then (d2, k2)
      else shortest_from fuel' m e t (n + 1)
  end.

Definition shortest (m : positive) (e : Z) : Z * Z :=
  shortest_from 16 m e (decimal_point m e) 1.

(** Trailing zeros move from the digits to the exponent. *)
Fixpoint strip_zeros (fuel : nat) (d k : Z) : Z * Z :=
  match fuel with
  | O => (d, k)
  | S fuel' =>
      if (d mod 10 =? 0) && negb (d =? 0) then strip_zeros fuel' (d / 10) (k + 1)
      else (d, k)
  end.

Definition zeros (n : Z) : string :=
  string_of_list_ascii (repeat "0"%char (Z.to_nat n)).

(** The layout of [repr]: the digits [ds] with the decimal point after
    the first [pt] of them; scientific notation when [pt <= -4] or
    [pt > 16], with an exponent of at least two digits. *)
Definition layout (ds : string) (pt : Z) : string :=
  let nd := Z.of_nat (String.length ds) in
  if (pt <=? -4) || (16 <? pt) then
    let x := pt - 1 in
    substring 0 1 ds
      ++ (if 1 <? nd then "." ++ substring 1 (String.length ds - 1) ds else "")
      ++ "e" ++ (if x <? 0 then "-" else "+") ++ pad_left 2 (of_Z (Z.abs x))
  else if pt <=? 0 then "0." ++ zeros (- pt) ++ ds
  else if pt <? nd then
    substring 0 (Z.to_nat pt) ds ++ "."
      ++ substring (Z.to_nat pt) (String.length ds - Z.to_nat pt) ds
  else ds ++ zeros (pt - nd) ++ ".0".

(** [repr(f)], which is also [str(f)] and what an f-string field
    without a format gives. *)
Definition repr_float (f : float) : string :=
  match Prim2SF f with
  | S754_nan => "nan"
  | S754_infinity s => sign_text s ++ "inf"
  | S754_zero s => sign_text s ++ "0.0"
  | S754_finite s m e =>
      let '(d0, k0) := shortest m e in
      let '(d, k) := strip_zeros 17 d0 k0 in
      let ds := of_Z d in
      sign_text s ++ layout ds (k + Z.of_nat (String.length ds))
  end.

(** *** [float(s)] of a string *)

Definition is_digit (c : ascii) : bool :=
  let n := nat_of_ascii c in (48 <=? n)%nat && (n <=? 57)%nat.

Definition digit_value (c : ascii) : Z := Z.of_nat (nat_of_ascii c) - 48.

(** The white space that [float] strips at both ends. *)
Definition is_space (c : ascii) : bool :=
  let n := nat_of_ascii c in ((9 <=? n)%nat && (n <=? 13)%nat) || (n =? 32)%nat.

Fixpoint drop_spaces (cs : list ascii) : list ascii :=
  match cs with
  | c :: rest => if is_space c then drop_spaces rest else cs
  | [] => []
  end.

Definition strip (cs : list ascii) : list ascii :=
  rev (drop_spaces (rev (drop_spaces cs))).

(** Underscores are allowed between two digits only, and are dropped. *)
Fixpoint drop_underscores (prev : option ascii) (cs : list ascii) : option (list ascii) :=
  match cs with
  | [] => Some []
  | c :: rest =>
      if Ascii.eqb c "_" then
        match prev, rest with
        | Some p, n :: _ =>
            if is_digit p && is_digit n then drop_underscores (Some c) rest else None
        | _, _ => None
        end
      else option_map (cons c) (drop_underscores (Some c) rest)
  end.

Definition lower (c : ascii) : ascii :=
  let n := nat_of_ascii c in
  if (65 <=? n)%nat && (n <=? 90)%nat then ascii_of_nat (n + 32) else c.

(** A run of digits: its value continued from [acc], how many there
    were, and what follows. *)
Fixpoint digits (cs : list ascii) (acc : Z) (count : Z) : Z * Z * list ascii :=
  match cs with
  | c :: rest =>
      if is_digit c then digits rest (10 * acc + digit_value c) (count + 1)
      else (acc, count, cs)
  | [] => (acc, count, [])
  end.

Definition sign (cs : list ascii) : bool * list ascii :=
  match cs with
  | "-"%char :: rest => (true, rest)
  | "+"%char :: rest => (false, rest)
  | _ => (false, cs)
  end.

(** The exponent part: [e] or [E], an optional sign, at least one
    digit, and nothing after it. *)
Definition exponent (cs : list ascii) : option Z :=
  match cs with
  | [] => Some 0
  | c :: rest =>
      if Ascii.eqb (lower c) "e" then
        let '(neg, rest1) := sign rest in
        match digits rest1 0 0 with
        | (x, n, []) => if 0 <? n then Some (if neg then - x else x) else None
        | _ => None
        end
      else None
  end.

(** The decimal [d * 10^k] (with [d] positive) rounded to the nearest
    float, ties to even; beyond the range it is an infinity or a zero. *)
Definition nearest_float (neg : bool) (d k : Z) : spec_float :=
  let nd := Z.of_nat (String.length (of_Z d)) in
  if d =? 0 then S754_zero neg
  else if 310 <? nd + k then S754_infinity neg
  else if nd + k <? -330 then S754_zero neg
  else if 0 <=? k then
    binary_normalize prec emax ((if neg then -1 else 1) * (d * 10 ^ k)) 0 false
  else
    let '(q, e, l) := SFdiv_core_binary prec emax d 0 (10 ^ (- k)) 0 in
    binary_round_aux prec emax neg q e l.

(** [float(s)]: [None] stands for the [ValueError] of a string that is
    not a decimal number, [inf], [infinity] or [nan]. Characters beyond
    ASCII are not accepted by this model. *)
Definition float_of_string (s : string) : option float :=
  match drop_underscores None (list_ascii_of_string s) with
  | None => None
  | Some cs =>
      let '(neg, body) := sign (strip cs) in
      let word := string_of_list_ascii (map lower body) in
      if String.eqb word "inf" || String.eqb word "infinity" then
        Some (if neg then neg_infinity else infinity)
      else if String.eqb word "nan" then Some nan
      else
        let '(ip, ni, rest) := digits body 0 0 in
        let '(fp, nf, rest1) :=
          match rest with
          | "."%char :: r => digits r ip 0
          | _ => (ip, 0, rest)
          end in
        if 0 <? ni + nf then
          match exponent rest1 with
          | Some x => Some (SF2Prim (nearest_float neg fp (x - nf)))
          | None => None
          end
        else None
  end.

End Text.

(** ** Python values and the built-in [float] and [str] *)

Module Py.

(** The values that reach the class in this development. *)
Inductive value :=
| PyNone
| PyBool (b : bool)
| PyInt (n : Z)
| PyFloat (f : float)
| PyStr (s : string).

(** Why [float(v)] raised; the text of these built-in errors is not
    modelled. *)
Inductive float_error :=
| BadLiteral   (* ValueError: the string is not a number *)
| BadType      (* TypeError: not a string or a real number *)
| TooLarge.    (* OverflowError: int too large to convert to float *)

(** The exceptions: a [ValueError] raised by the class with its
    message, or an error of [float] passed on as it is. *)
Inductive exn :=
| ValueError (msg : string)
| FloatError (e : float_error).

(** [isinstance(e, ValueError)], what [except ValueError] catches. *)
Definition is_ValueError (e : exn) : bool :=
  match e with
  | ValueError _ | FloatError BadLiteral => true
  | FloatError _ => false
  end.

(** [isinstance(v, int)]; [bool] is a subclass of [int]. *)
Definition isinstance_int (v : value) : bool :=
  match v with
  | PyInt _ | PyBool _ => true
  | _ => false
  end.

(** [float(n)] of an [int]: the nearest float, ties to even, and
    [OverflowError] beyond the largest finite float. *)
Definition float_of_int (n : Z) : float_error + float :=
  match binary_normalize prec emax n 0 false with
  | S754_infinity _ => inl TooLarge
  | sf => inr (SF2Prim sf)
  end.

(** [float(v)]. *)
Definition float_of (v : value) : float_error + float :=
  match v with
  | PyNone => inl BadType
  | PyBool b => inr (if b then 1 else 0)%float
  | PyInt n => float_of_int n
  | PyFloat f => inr f
  | PyStr s =>
      match Text.float_of_string s with
      | Some f => inr f
      | None => inl BadLiteral
      end
  end.

(** [str(v)], the text of an f-string field [{v}]. The optional limit
    on the number of digits of an [int] is not modelled. *)
Definition str (v : value) : string :=
  match v with
  | PyNone => "None"
  | PyBool b => if b then "True" else "False"
  | PyInt n => Text.of_Z n
  | PyFloat f => Text.repr_float f
  | PyStr s => s
  end.

(** [format(f, ",.2f")] after a dollar sign: the currency format,
    ["${:,.2f}".format(f)]. *)
Definition currency (f : float) : string := "$" ++ Text.format_comma_2f f.

(** *** Statements: a state and a result or an exception *)

Inductive outcome (A : Type) :=
| Return (a : A)
| Raise (e : exn).
Arguments Return {A} a.
Arguments Raise {A} e.

Definition M (S A : Type) : Type := S -> outcome A * S.

Definition ret {S A} (a : A) : M S A := fun s => (Return a, s).

Definition bind {S A B} (m : M S A) (k : A -> M S B) : M S B :=
  fun s =>
    match m s with
    | (Return a, s') => k a s'
    | (Raise e, s') => (Raise e, s')
    end.

Definition raise {S A} (e : exn) : M S A := fun s => (Raise e, s).

Definition get {S} : M S S := fun s => (Return s, s).

Definition modify {S} (f : S -> S) : M S unit := fun s => (Return tt, f s).

(** [try: body except <caught>: handler]; what [body] did to the state
    before it raised stays done. *)
Definition try_except {S A} (body : M S A) (caught : exn -> bool)
    (handler : exn -> M S A) : M S A :=
  fun s =>
    match body s with
    | (Raise e, s') => if caught e then handler e s' else (Raise e, s')
    | r => r
    end.

(** A call of the built-in [float] as a statement. *)
Definition float_ {S} (v : value) : M S float :=
  match float_of v with
  | inr f => ret f
  | inl e => raise (FloatError e)
  end.

Definition when {S} (c : bool) (m : M S unit) : M S unit :=
  if c then m else ret tt.

End Py.

Export Py.

Declare Scope py_scope.
Delimit Scope py_scope with py.
Notation "x <- m ;; k" := (bind m (fun x => k))
  (at level 61, m at next level, right associativity) : py_scope.
Notation "m ;; k" := (bind m (fun _ => k))
  (at level 61, right associativity) : py_scope.

(** ** The class [BankAccount] *)

Module BankAccount.

Local Open Scope py_scope.

Record date := { year : Z; month : Z; day : Z }.

(** [date.fromisoformat("1970-01-01")]. *)
Definition epoch : date := {| year := 1970; month := 1; day := 1 |}.

Definition LARGE_TRANSACTION_THRESHOLD : float := 9999.99%float.
Definition LOW_BALANCE_LEVEL : float := 50.0%float.

(** An instance while [__init__] runs: an attribute is [None] until it
    is assigned. *)
Record instance := {
  i_date_created : option date;
  i_account_number : option value;
  i_client_number : option value;
  i_balance : option float
}.

(** The instance that [__init__] receives, after [super().__init__()]. *)
Definition fresh : instance :=
  {| i_date_created := None; i_account_number := None;
     i_client_number := None; i_balance := None |}.

Definition set_date_created (d : date) : M instance unit :=
  modify (fun i => {| i_date_created := Some d;
                      i_account_number := i_account_number i;
                      i_client_number := i_client_number i;
                      i_balance := i_balance i |}).

Definition set_account_number (v : value) : M instance unit :=
  modify (fun i => {| i_date_created := i_date_created i;
                      i_account_number := Some v;
                      i_client_number := i_client_number i;
                      i_balance := i_balance i |}).

Definition set_client_number (v : value) : M instance unit :=
  modify (fun i => {| i_date_created := i_date_created i;
                      i_account_number := i_account_number i;
                      i_client_number := Some v;
                      i_balance := i_balance i |}).

Definition set_balance (f : float) : M instance unit :=
  modify (fun i => {| i_date_created := i_date_created i;
                      i_account_number := i_account_number i;
                      i_client_number := i_client_number i;
                      i_balance := Some f |}).

(** [__init__(self, account_number, client_number, balance,
    date_created=None)]; the [print] calls are not modelled. *)
Definition __init__ (account_number client_number balance : value)
    (date_created : option date) : M instance unit :=
  set_date_created (match date_created with Some d => d | None => epoch end) ;;
  (if isinstance_int account_number then set_account_number account_number
   else raise (ValueError "account number is invlid")) ;;
  (if isinstance_int client_number then set_client_number client_number
   else raise (ValueError "client number is invalid")) ;;
  try_except
    (b <- float_ balance ;; set_balance b)
    (fun _ => true)
    (fun _ => set_balance 0.0%float ;;
              raise (ValueError "Invalid balance, set to $0.0")).

(** The call [BankAccount(...)] (of a concrete subclass): the new
    instance when [__init__] returns, its exception otherwise. *)
Definition construct (account_number client_number balance : value)
    (date_created : option date) : outcome instance :=
  match __init__ account_number client_number balance date_created fresh with
  | (Return _, i) => Return i
  | (Raise e, _) => Raise e
  end.

(** A constructed account. [published] is the sequence of messages
    that the account has handed to [notify], oldest first. *)
Record account := {
  date_created : date;
  account_number : value;
  client_number : value;
  balance : float;
  published : list string
}.

(** The account that an instance is once all its attributes are
    assigned; nothing is published yet. *)
Definition account_of (i : instance) : option account :=
  match i_date_created i, i_account_number i, i_client_number i, i_balance i with
  | Some d, Some a, Some c, Some b =>
      Some {| date_created := d; account_number := a; client_number := c;
              balance := b; published := [] |}
  | _, _, _, _ => None
  end.

(** Modelled from the spec: [Subject.notify] (patterns/observer/subject.py
    is not among the sources) publishes the message to the subscribed
    listeners, synchronously and in subscription order. The model records
    the message published; the listeners are the Subject's. *)
Definition notify (message : string) : M account unit :=
  modify (fun a => {| date_created := date_created a;
                      account_number := account_number a;
                      client_number := client_number a;
                      balance := balance a;
                      published := (published a ++ [message])%list |}).

(** [self.__balance += x]. *)
Definition add_to_balance (x : float) : M account unit :=
  modify (fun a => {| date_created := date_created a;
                      account_number := account_number a;
                      client_number := client_number a;
                      balance := (balance a + x)%float;
                      published := published a |}).

Definition low_balance_message (a : account) : string :=
  "Low balance warning " ++ Text.repr_float (balance a)
    ++ ": on account " ++ str (account_number a).

(** The line feed of ["\n"]. *)
Definition newline : string := String (ascii_of_nat 10) "".

Definition large_transaction_message (amount : value) (a : account) : string :=
  "Large transaction " ++ str amount ++ ": on account "
    ++ str (account_number a) ++ newline
    ++ "Details: updated balance is " ++ Text.repr_float (balance a).

(** [updated_balance(self, amount)]. *)
Definition updated_balance (amount : value) : M account unit :=
  try_except
    (x <- float_ amount ;;
     add_to_balance x ;;
     self <- get ;;
     when (balance self <? LOW_BALANCE_LEVEL)%float
       (notify (low_balance_message self)) ;;
     self <- get ;;
     when (LARGE_TRANSACTION_THRESHOLD <? balance self)%float
       (notify (large_transaction_message amount self)))
    is_ValueError
    (fun _ => raise (ValueError "Amount must be numeric.")).

(** [deposit(self, amount)]. *)
Definition deposit (amount : value) : M account unit :=
  x <- try_except (float_ amount) (fun _ => true)
         (fun _ => raise (ValueError
            ("Deposit amount: " ++ str amount ++ " must be numeric."))) ;;
  if (x <=? 0)%float then
    let formatted_amount := currency x in
    raise (ValueError
      ("Deposit amount: " ++ formatted_amount ++ " must be positive."))
  else updated_balance (PyFloat x).

(** [withdraw(self, amount)]. *)
Definition withdraw (amount : value) : M account unit :=
  x <- try_except (float_ amount) (fun _ => true)
         (fun _ => raise (ValueError
            ("Withdraw amount: " ++ str amount ++ " must be numeric."))) ;;
  self <- get ;;
  if (x <=? 0)%float then
    let formatted_amount := currency x in
    raise (ValueError
      ("Withdraw amount: " ++ formatted_amount ++ " must be positive."))
  else if (balance self <? x)%float then
    let formatted_amount := currency x in
    let formatted_balance := currency (balance self) in
    raise (ValueError
      ("Withdrawal amount: " ++ formatted_amount
         ++ " must not exceed the current account balance: "
         ++ formatted_balance))
  else updated_balance (PyFloat (- x)%float).


End BankAccount.

(** ** The vocabulary of the statements *)

Import BankAccount.

Local Open Scope float_scope.

(** [sub in s]: the text [sub] occurs in [s]. *)
Definition includes (sub s : string) : Prop :=
  exists pre post, s = pre ++ sub ++ post.

Fixpoint starts_with (p s : string) : bool :=
  match p, s with
  | EmptyString, _ => true
  | String a p', String b s' => Ascii.eqb a b && starts_with p' s'
  | String _ _, EmptyString => false
  end.

Fixpoint includesb (sub s : string) : bool :=
  starts_with sub s
  || match s with
     | EmptyString => false
     | String _ s' => includesb sub s'
     end.

(** What an update publishes, read off the updated account: the
    low-balance message if the balance is below the level, then the
    large-transaction message if it is above the threshold. *)
Definition announcements (amount : value) (a : account) : list string :=
  ((if balance a <? LOW_BALANCE_LEVEL then [low_balance_message a] else [])
   ++ (if LARGE_TRANSACTION_THRESHOLD <? balance a
       then [large_transaction_message amount a] else []))%list.

(** The two accounts differ at most in the balance and in what has been
    published. *)
Definition same_identity (a a' : account) : Prop :=
  account_number a' = account_number a
  /\ client_number a' = client_number a
  /\ date_created a' = date_created a.

(** [Account(1001, 5001, b)] as constructed, before any operation. *)
Definition account_1001 (b : float) : account :=
  {| date_created := epoch; account_number := PyInt 1001;
     client_number := PyInt 5001; balance := b; published := [] |}.

(** Neither NaN nor an infinity, on the specification of binary64. *)
Definition SFfinite (x : spec_float) : bool :=
  match x with
  | S754_zero _ | S754_finite _ _ _ => true
  | _ => false
  end.

(** The operations that change an account. *)
Inductive operation :=
| Deposit (amount : value)
| Withdraw (amount : value)
| UpdatedBalance (amount : value).

Definition perform (op : operation) : M account unit :=
  match op with
  | Deposit amount => deposit amount
  | Withdraw amount => withdraw amount
  | UpdatedBalance amount => updated_balance amount
  end.

(** The account after a sequence of operations, each of which may have
    returned or raised. *)
Fixpoint perform_all (ops : list operation) (a : account) : account :=
  match ops with
  | [] => a
  | op :: rest => perform_all rest (snd (perform op a))
  end.

(** What [float] makes of the operation's amount is finite, when it makes
    anything of it. *)
Definition finite_amount (op : operation) : bool :=
  match op with
  | Deposit amount | Withdraw amount | UpdatedBalance amount =>
      match float_of amount with
      | inr x => is_finite x
      | inl _ => true
      end
  end.

(** A deposit or a withdrawal: the operations that validate the amount
    before they update the balance. *)
Definition is_transaction (op : operation) : bool :=
  match op with
  | Deposit _ | Withdraw _ => true
  | UpdatedBalance _ => false
  end.

(** The instance that a failed [__init__] leaves when the account number
    is refused: only the date is assigned. *)
Definition only_dated (d : option date) : instance :=
  {| i_date_created := Some (match d with Some d' => d' | None => epoch end);
     i_account_number := None; i_client_number := None; i_balance := None |}.

(** The instance that a failed [__init__] leaves when the client number
    is refused: the date and the account number are assigned. *)
Definition only_numbered (a : value) (d : option date) : instance :=
  {| i_date_created := Some (match d with Some d' => d' | None => epoch end);
     i_account_number := Some a; i_client_number := None; i_balance := None |}.

(** Not below zero, as the comparison of floats has it: so are the
    zeros of both signs, the positive numbers, plus infinity and NaN. *)
Definition SFnot_negative (x : spec_float) : bool :=
  negb (SFltb x (S754_zero false)).

Arguments LOW_BALANCE_LEVEL : simpl never.
Arguments LARGE_TRANSACTION_THRESHOLD : simpl never.
Arguments low_balance_message : simpl never.
Arguments large_transaction_message : simpl never.
Arguments currency : simpl never.
Arguments str : simpl never.

Ltac run :=
  unfold deposit, withdraw, updated_balance, bind, try_except, float_, ret,
    raise, get, when, notify, add_to_balance, modify.

Ltac run_init :=
  unfold construct, __init__, bind, try_except, float_, ret, raise,
    set_date_created, set_account_number, set_client_number, set_balance,
    modify.

(** ** Facts about binary64 comparison and addition *)

Module FloatFacts.

Local Open Scope float_scope.

(** Comparing the other way round gives the opposite answer. *)
Lemma SFcompare_swap (x y : spec_float) :
  SFcompare y x = option_map CompOpp (SFcompare x y).
Proof.
  destruct x as [sx | sx | | sx mx ex], y as [sy | sy | | sy my ey];
    try reflexivity;
    try (destruct sx; reflexivity);
    try (destruct sy; reflexivity);
    try (destruct sx, sy; reflexivity).
  destruct sx, sy; simpl; try reflexivity;
    rewrite (Z.compare_antisym ex ey);
    destruct (ex ?= ey)%Z; simpl; try reflexivity;
    repeat f_equal; symmetry; apply (Pos.compare_cont_antisym mx my Eq).
Qed.

(** [0 < x] excludes [x <= 0] (and [x] is then not NaN). *)
Lemma ltb_not_leb (x y : float) : (x <? y) = true -> (y <=? x) = false.
Proof.
  rewrite ltb_spec, leb_spec. unfold SFltb, SFleb.
  rewrite (SFcompare_swap (Prim2SF x) (Prim2SF y)).
  destruct (SFcompare (Prim2SF x) (Prim2SF y)) as [[ | | ] | ];
    simpl; congruence.
Qed.

(** [x <= y] excludes [y < x]. *)
Lemma leb_not_ltb (x y : float) : (x <=? y) = true -> (y <? x) = false.
Proof.
  rewrite ltb_spec, leb_spec. unfold SFltb, SFleb.
  rewrite (SFcompare_swap (Prim2SF x) (Prim2SF y)).
  destruct (SFcompare (Prim2SF x) (Prim2SF y)) as [[ | | ] | ];
    simpl; congruence.
Qed.

Lemma SFadd_opp (x y : spec_float) :
  SF64add x (SFopp y) = SF64sub x y.
Proof.
  unfold SF64add, SF64sub.
  destruct x as [sx | sx | | sx mx ex], y as [sy | sy | | sy my ey];
    try reflexivity;
    destruct sx, sy; reflexivity.
Qed.

(** Adding the opposite is subtracting, bit for bit. *)
Lemma add_opp (x y : float) : x + (- y) = x - y.
Proof.
  apply Prim2SF_inj.
  rewrite add_spec, opp_spec, sub_spec. apply SFadd_opp.
Qed.

End FloatFacts.

(** ** Facts about message texts *)

Module StringFacts.

Lemma starts_with_spec (p s : string) :
  starts_with p s = true <-> exists post, s = p ++ post.
Proof.
  revert s. induction p as [ | a p IH]; intros s; simpl.
  - split; [intros _; now exists s | reflexivity].
  - destruct s as [ | b s]; simpl.
    + split; [discriminate | intros [post H]; discriminate].
    + rewrite andb_true_iff, Ascii.eqb_eq, IH. split.
      * intros [-> [post ->]]. now exists post.
      * intros [post H]. injection H as -> ->. split; [reflexivity | now exists post].
Qed.

Lemma includesb_spec (sub s : string) :
  includesb sub s = true <-> includes sub s.
Proof.
  unfold includes. induction s as [ | c s IH].
  - simpl. rewrite orb_false_r, starts_with_spec. split.
    + intros [post H]. now exists "", post.
    + intros [pre [post H]]. destruct pre; simpl in H; [now exists post | discriminate].
  - cbn [includesb]. rewrite orb_true_iff, starts_with_spec, IH. split.
    + intros [[post H] | [pre [post H]]].
      * now exists "", post.
      * exists (String c pre), post. simpl. now f_equal.
    + intros [pre [post H]]. destruct pre as [ | d pre]; simpl in H.
      * left. now exists post.
      * right. injection H as _ H. now exists pre, post.
Qed.

Lemma includes_middle (pre sub post : string) : includes sub (pre ++ sub ++ post).
Proof. now exists pre, post. Qed.

Lemma length_append (s t : string) :
  String.length (s ++ t) = (String.length s + String.length t)%nat.
Proof. induction s; simpl; congruence. Qed.

(** Two texts that end in endings of the same length are equal only
    when the endings are. *)
Lemma append_inj_suffix (s1 s2 t1 t2 : string) :
  String.length t1 = String.length t2 ->
  s1 ++ t1 = s2 ++ t2 -> s1 = s2 /\ t1 = t2.
Proof.
  intros Hlen. revert s2.
  induction s1 as [ | a s1 IH]; intros [ | b s2] H; simpl in H.
  - now split.
  - exfalso. apply (f_equal String.length) in H. simpl in H.
    rewrite length_append in H. lia.
  - exfalso. apply (f_equal String.length) in H. simpl in H.
    rewrite length_append in H. lia.
  - injection H as -> H. destruct (IH s2 H) as [-> ->]. now split.
Qed.

Lemma append_assoc (s t u : string) : (s ++ t) ++ u = s ++ t ++ u.
Proof. induction s; simpl; congruence. Qed.

Lemma append_empty_r (s : string) : s ++ "" = s.
Proof. induction s; simpl; congruence. Qed.

Lemma includes_end (pre sub : string) : includes sub (pre ++ sub).
Proof. exists pre, "". now rewrite append_empty_r. Qed.

Lemma includes_after (pre sub s : string) :
  includes sub s -> includes sub (pre ++ s).
Proof.
  intros (p & q & ->). exists (pre ++ p), q. now rewrite append_assoc.
Qed.

End StringFacts.

(** ** The text functions on known values *)

(** [repr] of floats, as the interpreter prints them. *)
Example repr_float_examples :
  map Text.repr_float
    [40; 10100; 0.1; 1e16; 1e15; 1e-5; 0.0001; 1234.5; -60; 9999.99; 1e23;
     5e-324; 1.7976931348623157e308; (- 0); infinity; nan]%float
  = ["40.0"; "10100.0"; "0.1"; "1e+16"; "1000000000000000.0"; "1e-05";
     "0.0001"; "1234.5"; "-60.0"; "9999.99"; "1e+23"; "5e-324";
     "1.7976931348623157e+308"; "-0.0"; "inf"; "nan"]%string.
Proof. vm_compute. reflexivity. Qed.

(** The currency format, with its rounding to even on the binary value. *)
Example currency_examples :
  map currency
    [1234.5; 1234.56; 100; 500; -5; 0.005; 0.015; 2.675; 999.995; 1e6;
     1234567.891; (- 0); -0.001; infinity; nan]%float
  = ["$1,234.50"; "$1,234.56"; "$100.00"; "$500.00"; "$-5.00"; "$0.01";
     "$0.01"; "$2.67"; "$1,000.00"; "$1,000,000.00"; "$1,234,567.89";
     "$-0.00"; "$-0.00"; "$inf"; "$nan"]%string.
Proof. vm_compute. reflexivity. Qed.

(** [float] of strings, of integers and of the other values. *)
Example float_of_examples :
  map float_of
    [PyStr "100"; PyStr " 1_000.5 "; PyStr "-1e3"; PyStr ".5"; PyStr "inf";
     PyStr "1e400"; PyStr "abc"; PyStr ""; PyStr "1_"; PyStr "1e";
     PyInt 60; PyInt 9007199254740993; PyInt (2 ^ 1024); PyBool true; PyNone]
  = [inr 100; inr 1000.5; inr (-1000); inr 0.5; inr infinity;
     inr infinity; inl BadLiteral; inl BadLiteral; inl BadLiteral;
     inl BadLiteral; inr 60; inr 9007199254740992; inl TooLarge; inr 1;
     inl BadType]%float.
Proof. vm_compute. reflexivity. Qed.

(** ** What the operations do *)

Import StringFacts FloatFacts.

(** An update by an amount that [float] accepts returns, with the sum as
    the balance and the announcements published after the earlier ones. *)
Lemma updated_balance_ok (amount : value) (x : float) (a : account) :
  float_of amount = inr x ->
  exists a',
    updated_balance amount a = (Return tt, a')
    /\ balance a' = balance a + x
    /\ same_identity a a'
    /\ published a' = (published a ++ announcements amount a')%list.
Proof.
  intros Hx. run. rewrite Hx. unfold announcements. cbn.
  destruct (balance a + x <? LOW_BALANCE_LEVEL) eqn:Hlow; cbn;
    destruct (LARGE_TRANSACTION_THRESHOLD <? balance a + x) eqn:Hlarge; cbn;
    eexists; (split; [reflexivity | ]); cbn; rewrite ?Hlow, ?Hlarge;
    unfold same_identity; cbn; repeat split;
    rewrite <- ?app_assoc, ?app_nil_r; reflexivity.
Qed.

(** An update by an amount that [float] rejects raises and changes
    nothing. *)
Lemma updated_balance_rejected (amount : value) (e : float_error) (a : account) :
  float_of amount = inl e ->
  updated_balance amount a
  = (Raise (if is_ValueError (FloatError e)
            then ValueError "Amount must be numeric." else FloatError e), a).
Proof.
  intros He. run. rewrite He. destruct e; reflexivity.
Qed.

Lemma deposit_not_numeric (amount : value) (e : float_error) (a : account) :
  float_of amount = inl e ->
  deposit amount a
  = (Raise (ValueError ("Deposit amount: " ++ str amount ++ " must be numeric.")), a).
Proof. intros He. run. rewrite He. reflexivity. Qed.

Lemma deposit_not_positive (amount : value) (x : float) (a : account) :
  float_of amount = inr x -> (x <=? 0) = true ->
  deposit amount a
  = (Raise (ValueError ("Deposit amount: " ++ currency x ++ " must be positive.")), a).
Proof. intros Hx Hle. run. rewrite Hx. cbn. rewrite Hle. reflexivity. Qed.

Lemma deposit_accepted (amount : value) (x : float) (a : account) :
  float_of amount = inr x -> (x <=? 0) = false ->
  deposit amount a = updated_balance (PyFloat x) a.
Proof. intros Hx Hle. run. rewrite Hx. cbn. rewrite Hle. reflexivity. Qed.

Lemma withdraw_not_numeric (amount : value) (e : float_error) (a : account) :
  float_of amount = inl e ->
  withdraw amount a
  = (Raise (ValueError ("Withdraw amount: " ++ str amount ++ " must be numeric.")), a).
Proof. intros He. run. rewrite He. reflexivity. Qed.

Lemma withdraw_not_positive (amount : value) (x : float) (a : account) :
  float_of amount = inr x -> (x <=? 0) = true ->
  withdraw amount a
  = (Raise (ValueError ("Withdraw amount: " ++ currency x ++ " must be positive.")), a).
Proof. intros Hx Hle. run. rewrite Hx. cbn. rewrite Hle. reflexivity. Qed.

Lemma withdraw_exceeds (amount : value) (x : float) (a : account) :
  float_of amount = inr x -> (x <=? 0) = false -> (balance a <? x) = true ->
  withdraw amount a
  = (Raise (ValueError
       ("Withdrawal amount: " ++ currency x
          ++ " must not exceed the current account balance: "
          ++ currency (balance a))), a).
Proof. intros Hx Hle Hlt. run. rewrite Hx. cbn. rewrite Hle, Hlt. reflexivity. Qed.

Lemma withdraw_accepted (amount : value) (x : float) (a : account) :
  float_of amount = inr x -> (x <=? 0) = false -> (balance a <? x) = false ->
  withdraw amount a = updated_balance (PyFloat (- x)) a.
Proof. intros Hx Hle Hlt. run. rewrite Hx. cbn. rewrite Hle, Hlt. reflexivity. Qed.

(** ** Withdrawals *)

(** C1, the case of a negative balance: on the overdrawn [Account(1001, 5001,
    -100.0)], which the constructor accepts, [withdraw(-5.0)] is a
    withdrawal of more than the balance; it raises the must-be-positive
    error, whose message shows the amount but not the balance. *)
Lemma withdraw_above_negative_balance :
  (exists i, construct (PyInt 1001) (PyInt 5001) (PyFloat (-100)) None = Return i
             /\ account_of i = Some (account_1001 (-100)))
  /\ (balance (account_1001 (-100)) <? -5) = true
  /\ withdraw (PyFloat (-5)) (account_1001 (-100))
     = (Raise (ValueError "Withdraw amount: $-5.00 must be positive."),
        account_1001 (-100))
  /\ currency (balance (account_1001 (-100))) = "$-100.00"%string
  /\ ~ includes "$-100.00" "Withdraw amount: $-5.00 must be positive.".
Proof.
  split; [eexists; split; reflexivity | ].
  repeat split; try reflexivity.
  rewrite <- includesb_spec. vm_compute. discriminate.
Qed.

(** C1 (amended): for every account and every amount x that [float]
    accepts: if 0 < x <= balance, [withdraw(x)] returns and the balance
    becomes the float difference balance - x, the identity unchanged; if
    0 < x and x > balance, it raises the [ValueError] whose message holds
    the amount and the balance in the currency format; if x <= 0 it raises
    the must-be-positive [ValueError]; if [float] rejects the amount it
    raises the must-be-numeric [ValueError]; and whenever it raises, the
    account is left as it was. *)
Theorem withdraw_spec (a : account) (amount : value) :
  (forall x, float_of amount = inr x ->
     (0 <? x) = true -> (x <=? balance a) = true ->
     exists a', withdraw amount a = (Return tt, a')
                /\ balance a' = balance a - x
                /\ same_identity a a')
  /\ (forall x, float_of amount = inr x ->
        (0 <? x) = true -> (balance a <? x) = true ->
        exists msg, withdraw amount a = (Raise (ValueError msg), a)
                    /\ msg = ("Withdrawal amount: " ++ currency x
                              ++ " must not exceed the current account balance: "
                              ++ currency (balance a))%string
                    /\ includes (currency x) msg
                    /\ includes (currency (balance a)) msg)
  /\ (forall x, float_of amount = inr x -> (x <=? 0) = true ->
        withdraw amount a
        = (Raise (ValueError ("Withdraw amount: " ++ currency x
                              ++ " must be positive.")), a))
  /\ (forall e, float_of amount = inl e ->
        withdraw amount a
        = (Raise (ValueError ("Withdraw amount: " ++ str amount
                              ++ " must be numeric.")), a)).
Proof.
  repeat split.
  - intros x Hx Hpos Hle.
    rewrite (withdraw_accepted amount x a Hx (ltb_not_leb _ _ Hpos)
               (leb_not_ltb _ _ Hle)).
    destruct (updated_balance_ok (PyFloat (- x)) (- x) a eq_refl)
      as (a' & Hrun & Hbal & Hid & _).
    exists a'. split; [exact Hrun | split; [ | exact Hid]].
    rewrite Hbal. apply add_opp.
  - intros x Hx Hpos Hlt. eexists. split; [ | split; [reflexivity | split]].
    + apply (withdraw_exceeds amount x a Hx (ltb_not_leb _ _ Hpos) Hlt).
    + apply includes_middle.
    + do 2 apply includes_after. apply includes_end.
  - intros x Hx Hle. now apply withdraw_not_positive.
  - intros e He. now apply (withdraw_not_numeric amount e).
Qed.

(** The scenarios of C1 on [Account(1001, 5001, 100.0)]: [withdraw(60)]
    leaves 40.0, and [withdraw(500)] raises, mentioning [$500.00] and
    [$100.00], the balance staying 100.0. *)
Lemma withdraw_spec_witness :
  (exists a', withdraw (PyInt 60) (account_1001 100) = (Return tt, a')
              /\ balance a' = 100 - 60
              /\ same_identity (account_1001 100) a')
  /\ (exists msg,
        withdraw (PyInt 500) (account_1001 100)
        = (Raise (ValueError msg), account_1001 100)
        /\ msg = ("Withdrawal amount: " ++ currency 500
                  ++ " must not exceed the current account balance: "
                  ++ currency 100)%string
        /\ includes (currency 500) msg
        /\ includes (currency 100) msg).
Proof.
  split.
  - apply (proj1 (withdraw_spec (account_1001 100) (PyInt 60)) 60);
      reflexivity.
  - apply (proj1 (proj2 (withdraw_spec (account_1001 100) (PyInt 500))) 500);
      reflexivity.
Defined.

(** ** Deposits *)



(** ** Notifications *)

(** The two messages never coincide: they differ in the second letter. *)
Lemma low_is_not_large (a a' : account) (amount : value) :
  low_balance_message a <> large_transaction_message amount a'.
Proof. unfold low_balance_message, large_transaction_message. discriminate. Qed.

Lemma Prim2SF_LOW_BALANCE_LEVEL :
  Prim2SF LOW_BALANCE_LEVEL = S754_finite false 7036874417766400 (-47).
Proof. vm_compute. reflexivity. Qed.

Lemma Prim2SF_LARGE_TRANSACTION_THRESHOLD :
  Prim2SF LARGE_TRANSACTION_THRESHOLD = S754_finite false 5497552641321861 (-39).
Proof. vm_compute. reflexivity. Qed.

(** No float is both below the level and above the threshold. *)
Lemma low_excludes_large (b : float) :
  (b <? LOW_BALANCE_LEVEL) = true -> (LARGE_TRANSACTION_THRESHOLD <? b) = false.
Proof.
  rewrite !ltb_spec, Prim2SF_LOW_BALANCE_LEVEL, Prim2SF_LARGE_TRANSACTION_THRESHOLD.
  unfold SFltb.
  destruct (Prim2SF b) as [[ | ] | [ | ] | | [ | ] m e]; cbn [SFcompare];
    try reflexivity; try discriminate.
  destruct (Z.compare_spec e (-47)), (Z.compare_spec (-39) e);
    try reflexivity; try discriminate; lia.
Qed.

(** What an update announces, case by case. *)
Lemma announcements_low (amount : value) (a : account) :
  (balance a <? LOW_BALANCE_LEVEL) = true ->
  announcements amount a = [low_balance_message a].
Proof.
  intros H. unfold announcements. now rewrite H, (low_excludes_large _ H).
Qed.

Lemma announcements_large (amount : value) (a : account) :
  (LARGE_TRANSACTION_THRESHOLD <? balance a) = true ->
  announcements amount a = [large_transaction_message amount a].
Proof.
  intros H. unfold announcements. rewrite H.
  destruct (balance a <? LOW_BALANCE_LEVEL) eqn:Hlow; [ | reflexivity].
  apply low_excludes_large in Hlow. congruence.
Qed.

Lemma in_announcements_low (amount : value) (a : account) :
  In (low_balance_message a) (announcements amount a)
  <-> (balance a <? LOW_BALANCE_LEVEL) = true.
Proof.
  unfold announcements.
  destruct (balance a <? LOW_BALANCE_LEVEL);
    destruct (LARGE_TRANSACTION_THRESHOLD <? balance a); simpl;
    intuition (try discriminate).
Qed.

Lemma in_announcements_large (amount : value) (a : account) :
  In (large_transaction_message amount a) (announcements amount a)
  <-> (LARGE_TRANSACTION_THRESHOLD <? balance a) = true.
Proof.
  unfold announcements.
  destruct (balance a <? LOW_BALANCE_LEVEL);
    destruct (LARGE_TRANSACTION_THRESHOLD <? balance a); simpl;
    intuition (try discriminate).
Qed.

(** C4: every update by an amount that [float] accepts, of either sign,
    publishes the low-balance message if and only if the new balance is
    below [LOW_BALANCE_LEVEL] = 50.0 and the large-transaction message if
    and only if it is above [LARGE_TRANSACTION_THRESHOLD] = 9999.99; each
    test is made on its own, on the new balance, and nothing else is
    published. A deposit or a withdrawal that passes validation is such an
    update, by +x or by -x. *)
Theorem update_publishes_by_level (a : account) (amount : value) (x : float) :
  float_of amount = inr x ->
  (exists a',
     updated_balance amount a = (Return tt, a')
     /\ balance a' = balance a + x
     /\ published a' = (published a ++ announcements amount a')%list
     /\ (In (low_balance_message a') (announcements amount a')
         <-> (balance a' <? LOW_BALANCE_LEVEL) = true)
     /\ (In (large_transaction_message amount a') (announcements amount a')
         <-> (LARGE_TRANSACTION_THRESHOLD <? balance a') = true)
     /\ (forall m, In m (announcements amount a') ->
           m = low_balance_message a' \/ m = large_transaction_message amount a'))
  /\ LOW_BALANCE_LEVEL = 50
  /\ LARGE_TRANSACTION_THRESHOLD = 9999.99
  /\ ((x <=? 0) = false -> deposit amount a = updated_balance (PyFloat x) a)
  /\ ((x <=? 0) = false -> (balance a <? x) = false ->
      withdraw amount a = updated_balance (PyFloat (- x)) a).
Proof.
  intros Hx. split; [ | repeat split].
  - destruct (updated_balance_ok amount x a Hx) as (a' & Hrun & Hbal & _ & Hpub).
    exists a'. repeat split; trivial;
      try apply in_announcements_low; try apply in_announcements_large.
    unfold announcements. intros m Hm.
    destruct (balance a' <? LOW_BALANCE_LEVEL);
      destruct (LARGE_TRANSACTION_THRESHOLD <? balance a');
      simpl in Hm; intuition.
  - now apply deposit_accepted.
  - now apply withdraw_accepted.
Qed.

(** C4 on [Account(1001, 5001, 100.0)]: the update by -60 (a negative
    delta) leaves 40.0 and publishes the low-balance message. *)
Lemma update_publishes_by_level_witness :
  exists a',
    updated_balance (PyFloat (-60)) (account_1001 100) = (Return tt, a')
    /\ balance a' = 100 + -60
    /\ published a' = (published (account_1001 100)
                       ++ announcements (PyFloat (-60)) a')%list
    /\ (In (low_balance_message a') (announcements (PyFloat (-60)) a')
        <-> (balance a' <? LOW_BALANCE_LEVEL) = true)
    /\ (In (large_transaction_message (PyFloat (-60)) a')
           (announcements (PyFloat (-60)) a')
        <-> (LARGE_TRANSACTION_THRESHOLD <? balance a') = true)
    /\ (forall m, In m (announcements (PyFloat (-60)) a') ->
          m = low_balance_message a'
          \/ m = large_transaction_message (PyFloat (-60)) a').
Proof.
  apply (proj1 (update_publishes_by_level (account_1001 100) (PyFloat (-60))
                  (-60) eq_refl)).
Defined.


(** What a withdrawal that returns has published. *)
Lemma withdraw_returns (a a' : account) (amount : value) (x : float) :
  float_of amount = inr x ->
  withdraw amount a = (Return tt, a') ->
  balance a' = balance a + - x
  /\ published a' = (published a ++ announcements (PyFloat (- x)) a')%list.
Proof.
  intros Hx Hrun. destruct (x <=? 0) eqn:Hle.
  - rewrite (withdraw_not_positive amount x a Hx Hle) in Hrun. discriminate.
  - destruct (balance a <? x) eqn:Hlt.
    + rewrite (withdraw_exceeds amount x a Hx Hle Hlt) in Hrun. discriminate.
    + rewrite (withdraw_accepted amount x a Hx Hle Hlt) in Hrun.
      destruct (updated_balance_ok (PyFloat (- x)) (- x) a eq_refl)
        as (a'' & Hrun' & Hbal & _ & Hpub).
      rewrite Hrun' in Hrun. injection Hrun as <-. now split.
Qed.



(** C10: an update whose resulting balance is below 50.0 publishes the
    low-balance message whatever the balance was before, and one whose
    resulting balance is above 9999.99 publishes the large-transaction
    message whatever it was before: no crossing of the level is needed.
    Two deposits in a row, or two withdrawals in a row, that start below
    50.0 and stay below it publish one low-balance message each. *)
Theorem published_without_crossing :
  (forall a amount x,
     float_of amount = inr x ->
     (balance a + x <? LOW_BALANCE_LEVEL) = true ->
     exists a', updated_balance amount a = (Return tt, a')
                /\ published a' = (published a ++ [low_balance_message a'])%list)
  /\ (forall a amount x,
        float_of amount = inr x ->
        (LARGE_TRANSACTION_THRESHOLD <? balance a + x) = true ->
        exists a', updated_balance amount a = (Return tt, a')
                   /\ published a'
                      = (published a ++ [large_transaction_message amount a'])%list)
  /\ (forall a x y,
        (balance a <? LOW_BALANCE_LEVEL) = true ->
        (0 <? x) = true -> (balance a + x <? LOW_BALANCE_LEVEL) = true ->
        (0 <? y) = true -> (balance a + x + y <? LOW_BALANCE_LEVEL) = true ->
        exists a1 a2,
          deposit (PyFloat x) a = (Return tt, a1)
          /\ deposit (PyFloat y) a1 = (Return tt, a2)
          /\ published a2
             = (published a ++ [low_balance_message a1; low_balance_message a2])%list)
  /\ (forall a x y,
        (balance a <? LOW_BALANCE_LEVEL) = true ->
        (0 <? x) = true -> (x <=? balance a) = true ->
        (balance a - x <? LOW_BALANCE_LEVEL) = true ->
        (0 <? y) = true -> (y <=? balance a - x) = true ->
        (balance a - x - y <? LOW_BALANCE_LEVEL) = true ->
        exists a1 a2,
          withdraw (PyFloat x) a = (Return tt, a1)
          /\ withdraw (PyFloat y) a1 = (Return tt, a2)
          /\ published a2
             = (published a ++ [low_balance_message a1; low_balance_message a2])%list)
  /\ (forall a x y,
        (LARGE_TRANSACTION_THRESHOLD <? balance a) = true ->
        (0 <? x) = true -> (LARGE_TRANSACTION_THRESHOLD <? balance a + x) = true ->
        (0 <? y) = true -> (LARGE_TRANSACTION_THRESHOLD <? balance a + x + y) = true ->
        exists a1 a2,
          deposit (PyFloat x) a = (Return tt, a1)
          /\ deposit (PyFloat y) a1 = (Return tt, a2)
          /\ published a2
             = (published a ++ [large_transaction_message (PyFloat x) a1;
                                large_transaction_message (PyFloat y) a2])%list).
Proof.
  repeat split.
  - intros a amount x Hx Hlow.
    destruct (updated_balance_ok amount x a Hx) as (a' & Hrun & Hbal & _ & Hpub).
    exists a'. split; [exact Hrun | ].
    rewrite <- Hbal in Hlow. now rewrite Hpub at 1; rewrite announcements_low.
  - intros a amount x Hx Hlarge.
    destruct (updated_balance_ok amount x a Hx) as (a' & Hrun & Hbal & _ & Hpub).
    exists a'. split; [exact Hrun | ].
    rewrite <- Hbal in Hlarge. now rewrite Hpub at 1; rewrite announcements_large.
  - intros a x y _ Hx Hlow1 Hy Hlow2.
    destruct (updated_balance_ok (PyFloat x) x a eq_refl)
      as (a1 & Hrun1 & Hbal1 & _ & Hpub1).
    destruct (updated_balance_ok (PyFloat y) y a1 eq_refl)
      as (a2 & Hrun2 & Hbal2 & _ & Hpub2).
    exists a1, a2.
    rewrite (deposit_accepted (PyFloat x) x a eq_refl (ltb_not_leb _ _ Hx)).
    rewrite (deposit_accepted (PyFloat y) y a1 eq_refl (ltb_not_leb _ _ Hy)).
    repeat split; trivial.
    rewrite <- Hbal1 in Hlow1, Hlow2. rewrite <- Hbal2 in Hlow2.
    rewrite Hpub2 at 1. rewrite Hpub1 at 1.
    rewrite (announcements_low _ _ Hlow1), (announcements_low _ _ Hlow2).
    now rewrite <- app_assoc.
  - intros a x y _ Hx Hle1 Hlow1 Hy Hle2 Hlow2.
    destruct (updated_balance_ok (PyFloat (- x)) (- x) a eq_refl)
      as (a1 & Hrun1 & Hbal1 & _ & Hpub1).
    destruct (updated_balance_ok (PyFloat (- y)) (- y) a1 eq_refl)
      as (a2 & Hrun2 & Hbal2 & _ & Hpub2).
    rewrite add_opp in Hbal1, Hbal2.
    rewrite <- Hbal1 in Hle2, Hlow1, Hlow2. rewrite <- Hbal2 in Hlow2.
    exists a1, a2.
    rewrite (withdraw_accepted (PyFloat x) x a eq_refl (ltb_not_leb _ _ Hx)
               (leb_not_ltb _ _ Hle1)).
    rewrite (withdraw_accepted (PyFloat y) y a1 eq_refl (ltb_not_leb _ _ Hy)
               (leb_not_ltb _ _ Hle2)).
    repeat split; trivial.
    rewrite Hpub2 at 1. rewrite Hpub1 at 1.
    rewrite (announcements_low _ _ Hlow1), (announcements_low _ _ Hlow2).
    now rewrite <- app_assoc.
  - intros a x y _ Hx Hl1 Hy Hl2.
    destruct (updated_balance_ok (PyFloat x) x a eq_refl)
      as (a1 & Hrun1 & Hbal1 & _ & Hpub1).
    destruct (updated_balance_ok (PyFloat y) y a1 eq_refl)
      as (a2 & Hrun2 & Hbal2 & _ & Hpub2).
    exists a1, a2.
    rewrite (deposit_accepted (PyFloat x) x a eq_refl (ltb_not_leb _ _ Hx)).
    rewrite (deposit_accepted (PyFloat y) y a1 eq_refl (ltb_not_leb _ _ Hy)).
    repeat split; trivial.
    rewrite <- Hbal1 in Hl1, Hl2. rewrite <- Hbal2 in Hl2.
    rewrite Hpub2 at 1. rewrite Hpub1 at 1.
    rewrite (announcements_large _ _ Hl1), (announcements_large _ _ Hl2).
    now rewrite <- app_assoc.
Qed.

(** C10 on [Account(1001, 5001, 10.0)], already below 50.0: [deposit(5.0)]
    twice publishes two low-balance messages. *)
Lemma published_without_crossing_witness :
  exists a1 a2,
    deposit (PyFloat 5) (account_1001 10) = (Return tt, a1)
    /\ deposit (PyFloat 5) a1 = (Return tt, a2)
    /\ published a2
       = (published (account_1001 10)
          ++ [low_balance_message a1; low_balance_message a2])%list.
Proof.
  apply (proj1 (proj2 (proj2 published_without_crossing)) (account_1001 10) 5 5);
    reflexivity.
Defined.

(** ** Amounts that are not numbers *)

(** A must-be-positive message is never a must-be-numeric message: they
    end in [e.] and in [c.]. *)
Lemma positive_is_not_numeric (p u v : string) :
  (p ++ u ++ " must be positive." <> p ++ v ++ " must be numeric.")%string.
Proof.
  change " must be positive."%string with (" must be positiv" ++ "e.")%string.
  change " must be numeric."%string with (" must be numeri" ++ "c.")%string.
  rewrite <- !append_assoc. intros H.
  apply append_inj_suffix in H; [ | reflexivity].
  destruct H as [_ H]. discriminate.
Qed.

(** C9: [deposit] and [withdraw] take whatever [float] parses: for every
    string s with float(s) = x, [deposit(s)] returns when x > 0 and
    [withdraw(s)] returns when 0 < x <= balance, the balance becoming
    balance + x or balance - x; and each raises its must-be-numeric error
    exactly when [float] rejects the amount. *)
Theorem amounts_that_float_parses :
  (forall a s x,
     Text.float_of_string s = Some x -> (0 <? x) = true ->
     exists a', deposit (PyStr s) a = (Return tt, a')
                /\ balance a' = balance a + x
                /\ same_identity a a')
  /\ (forall a s x,
        Text.float_of_string s = Some x ->
        (0 <? x) = true -> (x <=? balance a) = true ->
        exists a', withdraw (PyStr s) a = (Return tt, a')
                   /\ balance a' = balance a - x
                   /\ same_identity a a')
  /\ (forall a amount,
        deposit amount a
        = (Raise (ValueError ("Deposit amount: " ++ str amount
                              ++ " must be numeric.")), a)
        <-> exists e, float_of amount = inl e)
  /\ (forall a amount,
        withdraw amount a
        = (Raise (ValueError ("Withdraw amount: " ++ str amount
                              ++ " must be numeric.")), a)
        <-> exists e, float_of amount = inl e).
Proof.
  assert (Hstr : forall s x, Text.float_of_string s = Some x ->
                             float_of (PyStr s) = inr x).
  { intros s x H. simpl. now rewrite H. }
  repeat split.
  - intros a s x Hs Hpos.
    rewrite (deposit_accepted _ x a (Hstr s x Hs) (ltb_not_leb _ _ Hpos)).
    destruct (updated_balance_ok (PyFloat x) x a eq_refl)
      as (a' & Hrun & Hbal & Hid & _).
    now exists a'.
  - intros a s x Hs Hpos Hle.
    rewrite (withdraw_accepted _ x a (Hstr s x Hs) (ltb_not_leb _ _ Hpos)
               (leb_not_ltb _ _ Hle)).
    destruct (updated_balance_ok (PyFloat (- x)) (- x) a eq_refl)
      as (a' & Hrun & Hbal & Hid & _).
    exists a'. split; [exact Hrun | split; [ | exact Hid]].
    rewrite Hbal. apply add_opp.
  - intros Hrun. destruct (float_of amount) as [e | x] eqn:Hx; [now exists e | ].
    exfalso. destruct (x <=? 0) eqn:Hle.
    + rewrite (deposit_not_positive amount x a Hx Hle) in Hrun.
      injection Hrun as Hmsg.
      exact (positive_is_not_numeric "" (currency x) (str amount) Hmsg).
    + rewrite (deposit_accepted amount x a Hx Hle) in Hrun.
      destruct (updated_balance_ok (PyFloat x) x a eq_refl) as (a' & Hrun' & _).
      rewrite Hrun' in Hrun. discriminate.
  - intros [e He]. now apply (deposit_not_numeric amount e).
  - intros Hrun. destruct (float_of amount) as [e | x] eqn:Hx; [now exists e | ].
    exfalso. destruct (x <=? 0) eqn:Hle.
    + rewrite (withdraw_not_positive amount x a Hx Hle) in Hrun.
      injection Hrun as Hmsg.
      exact (positive_is_not_numeric "" (currency x) (str amount) Hmsg).
    + destruct (balance a <? x) eqn:Hlt.
      * rewrite (withdraw_exceeds amount x a Hx Hle Hlt) in Hrun. discriminate.
      * rewrite (withdraw_accepted amount x a Hx Hle Hlt) in Hrun.
        destruct (updated_balance_ok (PyFloat (- x)) (- x) a eq_refl)
          as (a' & Hrun' & _).
        rewrite Hrun' in Hrun. discriminate.
  - intros [e He]. now apply (withdraw_not_numeric amount e).
Qed.

(** C9 on [Account(1001, 5001, 100.0)]: [deposit("100")] leaves
    100.0 + 100.0. *)
Lemma amounts_that_float_parses_witness :
  exists a', deposit (PyStr "100") (account_1001 100) = (Return tt, a')
             /\ balance a' = 100 + 100
             /\ same_identity (account_1001 100) a'.
Proof.
  apply (proj1 amounts_that_float_parses (account_1001 100) "100"%string 100);
    reflexivity.
Defined.

(** ** Construction *)

Lemma init_ok (a c b : value) (x : float) (d : option date) :
  isinstance_int a = true -> isinstance_int c = true -> float_of b = inr x ->
  __init__ a c b d fresh
  = (Return tt,
     {| i_date_created := Some (match d with Some d' => d' | None => epoch end);
        i_account_number := Some a; i_client_number := Some c;
        i_balance := Some x |}).
Proof. intros Ha Hc Hb. run_init. rewrite Ha, Hc, Hb. reflexivity. Qed.

Lemma init_unparseable (a c b : value) (e : float_error) (d : option date) :
  isinstance_int a = true -> isinstance_int c = true -> float_of b = inl e ->
  __init__ a c b d fresh
  = (Raise (ValueError "Invalid balance, set to $0.0"),
     {| i_date_created := Some (match d with Some d' => d' | None => epoch end);
        i_account_number := Some a; i_client_number := Some c;
        i_balance := Some 0 |}).
Proof. intros Ha Hc Hb. run_init. rewrite Ha, Hc, Hb. reflexivity. Qed.

(** C6: for all integers a and c and every b that [float] accepts,
    constructing Account(a, c, b) returns an account whose balance is
    float(b), whose account number is a and whose client number is c; its
    creation date is the one given, and 1970-01-01 when none is given. *)
Theorem construct_spec (a c b : value) (x : float) (d : option date) :
  isinstance_int a = true -> isinstance_int c = true -> float_of b = inr x ->
  exists i acct,
    construct a c b d = Return i
    /\ account_of i = Some acct
    /\ balance acct = x
    /\ account_number acct = a
    /\ client_number acct = c
    /\ published acct = []
    /\ (forall d', d = Some d' -> date_created acct = d')
    /\ (d = None ->
        date_created acct = {| year := 1970; month := 1; day := 1 |}).
Proof.
  intros Ha Hc Hb. unfold construct. rewrite (init_ok a c b x d Ha Hc Hb).
  do 2 eexists. split; [reflexivity | split; [reflexivity | ]]. cbn.
  repeat split; trivial.
  - now intros d' ->.
  - now intros ->.
Qed.

(** C6 on Account(1001, 5001, "100.5") with no date. *)
Lemma construct_spec_witness :
  exists i acct,
    construct (PyInt 1001) (PyInt 5001) (PyStr "100.5") None = Return i
    /\ account_of i = Some acct
    /\ balance acct = 100.5
    /\ account_number acct = PyInt 1001
    /\ client_number acct = PyInt 5001
    /\ date_created acct = {| year := 1970; month := 1; day := 1 |}.
Proof.
  destruct (construct_spec (PyInt 1001) (PyInt 5001) (PyStr "100.5") 100.5 None
              eq_refl eq_refl eq_refl)
    as (i & acct & Hrun & Hacct & Hb & Ha & Hc & _ & _ & Hd).
  exists i, acct. repeat split; trivial. now apply Hd.
Defined.

(** C3, the zeroed state: after the failed
    Account(1001, 5001, "abc"), the instance that [__init__] was building
    has every attribute assigned and a balance of 0.0: it is the account
    Account(1001, 5001, 0.0). *)
Lemma failed_init_leaves_zero_balance :
  float_of (PyStr "abc") = inl BadLiteral
  /\ exists i,
       __init__ (PyInt 1001) (PyInt 5001) (PyStr "abc") None fresh
       = (Raise (ValueError "Invalid balance, set to $0.0"), i)
       /\ i_balance i = Some 0
       /\ account_of i = Some (account_1001 0).
Proof. split; [reflexivity | eexists; repeat split; reflexivity]. Qed.

(** C3 (amended): constructing an account with a balance that [float]
    rejects raises [ValueError], so that the call returns no account;
    when the account and client numbers are integers, [__init__] has by
    then assigned them and the date to the instance and has set its
    balance to 0.0 before raising "Invalid balance, set to $0.0". *)
Theorem construct_unparseable (a c b : value) (e : float_error) (d : option date) :
  float_of b = inl e ->
  (exists msg, construct a c b d = Raise (ValueError msg))
  /\ (isinstance_int a = true -> isinstance_int c = true ->
      construct a c b d = Raise (ValueError "Invalid balance, set to $0.0")
      /\ __init__ a c b d fresh
         = (Raise (ValueError "Invalid balance, set to $0.0"),
            {| i_date_created := Some (match d with Some d' => d' | None => epoch end);
               i_account_number := Some a; i_client_number := Some c;
               i_balance := Some 0 |})).
Proof.
  intros Hb. split.
  - run_init. destruct (isinstance_int a); [ | now eexists].
    destruct (isinstance_int c); [ | now eexists].
    rewrite Hb. now eexists.
  - intros Ha Hc. unfold construct.
    now rewrite (init_unparseable a c b e d Ha Hc Hb).
Qed.

(** C3 on Account(1001, 5001, None). *)
Lemma construct_unparseable_witness :
  construct (PyInt 1001) (PyInt 5001) PyNone None
  = Raise (ValueError "Invalid balance, set to $0.0")
  /\ __init__ (PyInt 1001) (PyInt 5001) PyNone None fresh
     = (Raise (ValueError "Invalid balance, set to $0.0"),
        {| i_date_created := Some epoch;
           i_account_number := Some (PyInt 1001);
           i_client_number := Some (PyInt 5001);
           i_balance := Some 0 |}).
Proof.
  apply (proj2 (construct_unparseable (PyInt 1001) (PyInt 5001) PyNone BadType
                  None eq_refl)); reflexivity.
Defined.

(** ** The text of an account *)



Lemma length_list_ascii_of_string (s : string) :
  List.length (list_ascii_of_string s) = String.length s.
Proof. induction s; simpl; congruence. Qed.








(** ** The invariant *)

Module RoundingFacts.

Section Rounding.

Variables prec emax : Z.

Lemma shr_1_nonneg (mrs : shr_record) :
  (0 <= shr_m mrs)%Z -> (0 <= shr_m (shr_1 mrs))%Z.
Proof.
  destruct mrs as [m r s]. destruct m as [ | [p | p | ] | p]; simpl; lia.
Qed.

Lemma iter_shr_1_nonneg (p : positive) (mrs : shr_record) :
  (0 <= shr_m mrs)%Z -> (0 <= shr_m (iter_pos shr_1 p mrs))%Z.
Proof.
  revert mrs. induction p as [p IH | p IH | ]; intros mrs H; simpl.
  - apply IH, IH, shr_1_nonneg, H.
  - apply IH, IH, H.
  - apply shr_1_nonneg, H.
Qed.

Lemma shr_fexp_nonneg (m e : Z) (l : location) :
  (0 <= m)%Z -> (0 <= shr_m (fst (shr_fexp prec emax m e l)))%Z.
Proof.
  intros H. unfold shr_fexp, shr.
  assert (H0 : (0 <= shr_m (shr_record_of_loc m l))%Z)
    by (destruct l as [ | [ | | ]]; exact H).
  destruct (_ - e)%Z; simpl; trivial. now apply iter_shr_1_nonneg.
Qed.

Lemma round_nearest_even_nonneg (m : Z) (l : location) :
  (0 <= m)%Z -> (0 <= round_nearest_even m l)%Z.
Proof.
  intros H. destruct l as [ | [ | | ]]; simpl; try destruct (Z.even m); lia.
Qed.

(** Rounding a magnitude never gives NaN. *)
Lemma binary_round_aux_not_nan (sx : bool) (mx ex : Z) (lx : location) :
  (0 <= mx)%Z -> binary_round_aux prec emax sx mx ex lx <> S754_nan.
Proof.
  intros H. unfold binary_round_aux.
  pose proof (shr_fexp_nonneg mx ex lx H) as H1.
  destruct (shr_fexp prec emax mx ex lx) as [mrs' e'].
  pose proof (shr_fexp_nonneg
                (round_nearest_even (shr_m mrs') (loc_of_shr_record mrs'))
                e' loc_Exact
                (round_nearest_even_nonneg _ _ H1)) as H2.
  destruct (shr_fexp prec emax _ e' loc_Exact) as [mrs'' e''].
  simpl in H2. destruct (shr_m mrs''); try discriminate.
  - destruct (_ <=? _)%Z; discriminate.
  - lia.
Qed.

Lemma binary_normalize_not_nan (m e : Z) (szero : bool) :
  binary_normalize prec emax m e szero <> S754_nan.
Proof.
  destruct m as [ | p | p]; simpl; try discriminate;
    unfold binary_round; destruct (shl_align _ _ _);
    apply binary_round_aux_not_nan; lia.
Qed.

(** A number plus a finite number is a number, although it may be
    an infinity. *)
Lemma SFadd_not_nan (x y : spec_float) :
  x <> S754_nan -> SFfinite y = true ->
  SFadd prec emax x y <> S754_nan.
Proof.
  destruct x as [sx | sx | | sx mx ex], y as [sy | sy | | sy my ey];
    try discriminate; try congruence; intros _ _.
  - destruct sx, sy; discriminate.
  - apply binary_normalize_not_nan.
Qed.

End Rounding.

End RoundingFacts.

Import RoundingFacts.

Lemma is_nan_spec (f : float) :
  is_nan f = match Prim2SF f with S754_nan => true | _ => false end.
Proof.
  unfold is_nan. rewrite eqb_spec. unfold SFeqb.
  destruct (Prim2SF f) as [[ | ] | [ | ] | | [ | ] m e]; try reflexivity;
    cbn [SFcompare]; rewrite Z.compare_refl, Pos.compare_cont_refl; reflexivity.
Qed.

Lemma is_infinity_spec (f : float) :
  is_infinity f = match Prim2SF f with S754_infinity _ => true | _ => false end.
Proof.
  unfold is_infinity. rewrite eqb_spec, abs_spec.
  replace (Prim2SF infinity) with (S754_infinity false) by (vm_compute; reflexivity).
  destruct (Prim2SF f) as [[ | ] | [ | ] | | [ | ] m e]; reflexivity.
Qed.

(** [math.isfinite]: neither NaN nor an infinity. *)
Lemma is_finite_spec (f : float) : is_finite f = SFfinite (Prim2SF f).
Proof.
  unfold is_finite. rewrite is_nan_spec, is_infinity_spec.
  destruct (Prim2SF f); reflexivity.
Qed.

Lemma finite_is_not_nan (f : float) : is_finite f = true -> is_nan f = false.
Proof.
  rewrite is_finite_spec, is_nan_spec. destruct (Prim2SF f); simpl; congruence.
Qed.

Lemma opp_is_finite (f : float) : is_finite (- f) = is_finite f.
Proof.
  rewrite !is_finite_spec, opp_spec. destruct (Prim2SF f); reflexivity.
Qed.

Lemma sum_is_not_nan (x y : float) :
  is_nan x = false -> is_finite y = true -> is_nan (x + y) = false.
Proof.
  rewrite is_finite_spec, !is_nan_spec, add_spec. intros Hx Hy.
  assert (Hx' : Prim2SF x <> S754_nan) by (destruct (Prim2SF x); congruence).
  pose proof (SFadd_not_nan prec emax _ _ Hx' Hy) as H. unfold SF64add.
  destruct (SFadd prec emax (Prim2SF x) (Prim2SF y)); congruence.
Qed.

(** An operation leaves the account as it was, or adds to the balance
    what [float] made of the amount, or its opposite. *)
Lemma perform_cases (op : operation) (a : account) :
  (exists e, perform op a = (Raise e, a))
  \/ (exists a' amount x,
        perform op a = (Return tt, a')
        /\ (op = Deposit amount \/ op = Withdraw amount \/ op = UpdatedBalance amount)
        /\ float_of amount = inr x
        /\ (balance a' = balance a + x \/ balance a' = balance a + - x)
        /\ same_identity a a').
Proof.
  destruct op as [amount | amount | amount]; simpl;
    destruct (float_of amount) as [e | x] eqn:Hx.
  - left. eexists. exact (deposit_not_numeric amount e a Hx).
  - destruct (x <=? 0) eqn:Hle.
    + left. eexists. exact (deposit_not_positive amount x a Hx Hle).
    + right. rewrite (deposit_accepted amount x a Hx Hle).
      destruct (updated_balance_ok (PyFloat x) x a eq_refl)
        as (a' & Hrun & Hbal & Hid & _).
      exists a', amount, x. intuition.
  - left. eexists. exact (withdraw_not_numeric amount e a Hx).
  - destruct (x <=? 0) eqn:Hle.
    + left. eexists. exact (withdraw_not_positive amount x a Hx Hle).
    + destruct (balance a <? x) eqn:Hlt.
      * left. eexists. exact (withdraw_exceeds amount x a Hx Hle Hlt).
      * right. rewrite (withdraw_accepted amount x a Hx Hle Hlt).
        destruct (updated_balance_ok (PyFloat (- x)) (- x) a eq_refl)
          as (a' & Hrun & Hbal & Hid & _).
        exists a', amount, x. intuition.
  - left. eexists. exact (updated_balance_rejected amount e a Hx).
  - right. destruct (updated_balance_ok amount x a Hx)
      as (a' & Hrun & Hbal & Hid & _).
    exists a', amount, x. intuition.
Qed.

Lemma same_identity_refl (a : account) : same_identity a a.
Proof. now repeat split. Qed.

Lemma same_identity_trans (a b c : account) :
  same_identity a b -> same_identity b c -> same_identity a c.
Proof. unfold same_identity. intuition congruence. Qed.

Lemma perform_same_identity (op : operation) (a : account) :
  same_identity a (snd (perform op a)).
Proof.
  destruct (perform_cases op a) as [[e H] | (a' & amount & x & H & _ & _ & _ & Hid)];
    rewrite H; simpl; [apply same_identity_refl | exact Hid].
Qed.

(** C7, balances that are not finite: on Account(1001, 5001, 100.0), whose
    balance is finite, [deposit(float("inf"))] returns and leaves an
    infinite balance, [deposit("nan")] and [withdraw(float("nan"))] return
    and leave NaN, and on Account(1001, 5001, 1e308) the finite
    [deposit(1e308)] overflows to an infinite balance. *)
Lemma balance_not_kept_finite :
  is_finite (balance (account_1001 100)) = true
  /\ (exists a', deposit (PyFloat infinity) (account_1001 100) = (Return tt, a')
                 /\ balance a' = infinity
                 /\ is_finite (balance a') = false)
  /\ (exists a', deposit (PyStr "nan") (account_1001 100) = (Return tt, a')
                 /\ is_nan (balance a') = true)
  /\ (exists a', withdraw (PyFloat nan) (account_1001 100) = (Return tt, a')
                 /\ is_nan (balance a') = true)
  /\ (is_finite 1e308 = true
      /\ exists a', deposit (PyFloat 1e308) (account_1001 1e308) = (Return tt, a')
                    /\ balance a' = infinity).
Proof.
  repeat split; try (eexists; repeat split); vm_compute; reflexivity.
Qed.

(** C7 (amended): no sequence of operations changes the account number,
    the client number or the creation date, and an operation that raises
    leaves the whole account, the balance with it, as it was. The balance
    is always a float, but it is not kept finite; what is kept is that a
    balance that is not NaN does not become NaN as long as the amounts
    are finite. *)
Theorem account_invariant :
  (forall ops a, same_identity a (perform_all ops a))
  /\ (forall op a e a', perform op a = (Raise e, a') -> a' = a)
  /\ (forall ops a,
        is_nan (balance a) = false -> forallb finite_amount ops = true ->
        is_nan (balance (perform_all ops a)) = false).
Proof.
  split; [ | split].
  - intros ops. induction ops as [ | op ops IH]; intros a; simpl.
    + apply same_identity_refl.
    + eapply same_identity_trans; [apply perform_same_identity | apply IH].
  - intros op a e a' H.
    destruct (perform_cases op a) as [[e0 H0] | (a0 & amount & x & H0 & _)];
      rewrite H0 in H; [now injection H | discriminate].
  - intros ops. induction ops as [ | op ops IH]; intros a Hnan Hops; simpl.
    + exact Hnan.
    + simpl in Hops. apply andb_true_iff in Hops. destruct Hops as [Hop Hops].
      apply IH; [ | exact Hops].
      destruct (perform_cases op a)
        as [[e H] | (a' & amount & x & H & Hop' & Hx & Hbal & _)];
        rewrite H; simpl; [exact Hnan | ].
      assert (Hfin : is_finite x = true).
      { destruct Hop' as [-> | [-> | ->]]; simpl in Hop; now rewrite Hx in Hop. }
      destruct Hbal as [-> | ->]; apply sum_is_not_nan; trivial.
      now rewrite opp_is_finite.
Qed.

(** C7 on Account(1001, 5001, 100.0): after [deposit(10000)],
    [withdraw("abc")] and [withdraw(60)] the balance is not NaN. *)
Lemma account_invariant_witness :
  is_nan (balance
            (perform_all [Deposit (PyInt 10000); Withdraw (PyStr "abc");
                          Withdraw (PyInt 60)] (account_1001 100)))
  = false.
Proof.
  apply (proj2 (proj2 account_invariant)); reflexivity.
Defined.

(** ** Further properties of the class *)

(** *** Construction: which check fails first *)

(** X1: construction returns exactly when the account number and the
    client number are integers and [float] accepts the balance. The
    account number is checked first, then the client number, then the
    balance, and the first check that fails decides the error; a refused
    account or client number leaves the balance unassigned, not zeroed. *)
Theorem construct_validation_order (a c b : value) (d : option date) :
  ((exists i, construct a c b d = Return i)
   <-> isinstance_int a = true /\ isinstance_int c = true
       /\ exists x, float_of b = inr x)
  /\ (isinstance_int a = false ->
      __init__ a c b d fresh
      = (Raise (ValueError "account number is invlid"), only_dated d))
  /\ (isinstance_int a = true -> isinstance_int c = false ->
      __init__ a c b d fresh
      = (Raise (ValueError "client number is invalid"), only_numbered a d))
  /\ ((exists i, construct a c b d = Return i)
      \/ (exists msg, construct a c b d = Raise (ValueError msg))).
Proof.
  run_init. unfold only_dated, only_numbered.
  destruct (isinstance_int a) eqn:Ha; destruct (isinstance_int c) eqn:Hc;
    destruct (float_of b) as [e | x] eqn:Hb; cbn.
  all: split; [split | split; [ | split]].
  all: try (intros [i Hi]; discriminate).
  all: try (intros (H1 & H2 & [y Hy]); discriminate).
  all: try (intros; discriminate).
  all: try (intros; reflexivity).
  all: try (right; eexists; reflexivity).
  all: try (left; eexists; reflexivity).
  - intros _. repeat split. now exists x.
  - intros _. now eexists.
Qed.

(** X1 on Account("1001", 5001.5, "abc"): the account number is refused
    before the rest is looked at. *)
Lemma construct_validation_order_witness :
  __init__ (PyStr "1001") (PyFloat 5001.5) (PyStr "abc") None fresh
  = (Raise (ValueError "account number is invlid"), only_dated None).
Proof.
  apply (proj1 (proj2 (construct_validation_order (PyStr "1001")
                         (PyFloat 5001.5) (PyStr "abc") None))).
  reflexivity.
Defined.

(** *** Which exception an operation raises *)

(** X2: [updated_balance] catches [ValueError] only. It raises exactly
    when [float] rejects the amount: "Amount must be numeric." for a
    string that is not a number, but the [TypeError] of [None] and the
    [OverflowError] of an integer beyond the floats come out as they are.
    In each case the account is left as it was. *)
Theorem updated_balance_errors (a : account) (amount : value) :
  (float_of amount = inl BadLiteral ->
   updated_balance amount a = (Raise (ValueError "Amount must be numeric."), a))
  /\ (float_of amount = inl BadType ->
      updated_balance amount a = (Raise (FloatError BadType), a))
  /\ (float_of amount = inl TooLarge ->
      updated_balance amount a = (Raise (FloatError TooLarge), a))
  /\ ((exists e a', updated_balance amount a = (Raise e, a'))
      <-> exists e, float_of amount = inl e).
Proof.
  repeat split.
  - intros H. now rewrite (updated_balance_rejected amount _ a H).
  - intros H. now rewrite (updated_balance_rejected amount _ a H).
  - intros H. now rewrite (updated_balance_rejected amount _ a H).
  - intros (e & a' & Hrun).
    destruct (float_of amount) as [e0 | x] eqn:Hx; [now exists e0 | ].
    destruct (updated_balance_ok amount x a Hx) as (a'' & Hrun' & _).
    rewrite Hrun' in Hrun. discriminate.
  - intros [e He]. rewrite (updated_balance_rejected amount e a He).
    now do 2 eexists.
Qed.

(** X2 on Account(1001, 5001, 100.0): [updated_balance(None)] raises
    the [TypeError] of [float], [updated_balance(2 ** 1024)] its
    [OverflowError]. *)
Lemma updated_balance_errors_witness :
  updated_balance PyNone (account_1001 100)
  = (Raise (FloatError BadType), account_1001 100)
  /\ updated_balance (PyInt (2 ^ 1024)) (account_1001 100)
     = (Raise (FloatError TooLarge), account_1001 100).
Proof.
  split.
  - apply (proj1 (proj2 (updated_balance_errors (account_1001 100) PyNone))).
    reflexivity.
  - apply (proj1 (proj2 (proj2 (updated_balance_errors (account_1001 100)
                                  (PyInt (2 ^ 1024)))))).
    vm_compute. reflexivity.
Defined.

(** X3: [deposit] and [withdraw] never raise anything but [ValueError],
    whatever the argument: the errors of [float] that [updated_balance]
    lets through are all caught here. [deposit] returns exactly when
    [float] accepts the amount as an x for which x <= 0 is false, and
    [withdraw] exactly when moreover balance < x is false; NaN, for which
    every comparison is false, is therefore an accepted amount. *)
Theorem transactions_raise_value_errors (a : account) (amount : value) :
  (forall e a', deposit amount a = (Raise e, a') -> exists msg, e = ValueError msg)
  /\ (forall e a', withdraw amount a = (Raise e, a') -> exists msg, e = ValueError msg)
  /\ ((exists a', deposit amount a = (Return tt, a'))
      <-> exists x, float_of amount = inr x /\ (x <=? 0) = false)
  /\ ((exists a', withdraw amount a = (Return tt, a'))
      <-> exists x, float_of amount = inr x /\ (x <=? 0) = false
                    /\ (balance a <? x) = false).
Proof.
  destruct (float_of amount) as [e0 | x] eqn:Hx.
  - rewrite (deposit_not_numeric amount e0 a Hx),
      (withdraw_not_numeric amount e0 a Hx).
    repeat split; try (intros e a' H; injection H as <- _; now eexists);
      try (intros [a' H]; discriminate);
      intros (y & Hy & _); discriminate.
  - destruct (x <=? 0) eqn:Hle.
    + rewrite (deposit_not_positive amount x a Hx Hle),
        (withdraw_not_positive amount x a Hx Hle).
      repeat split; try (intros e a' H; injection H as <- _; now eexists);
        try (intros [a' H]; discriminate);
        intros (y & Hy & Hy'); injection Hy as <-;
        assert (Hfalse : (x <=? 0) = false)
          by (first [exact Hy' | exact (proj1 Hy')]);
        congruence.
    + rewrite (deposit_accepted amount x a Hx Hle).
      destruct (updated_balance_ok (PyFloat x) x a eq_refl) as (a1 & Hrun1 & _).
      rewrite Hrun1.
      destruct (balance a <? x) eqn:Hlt.
      * rewrite (withdraw_exceeds amount x a Hx Hle Hlt).
        repeat split; try (intros e a' H; discriminate);
          try (intros e a' H; injection H as <- _; now eexists);
          try (intros _; now exists x); try (intros _; now exists a1);
          try (intros [a' H]; discriminate).
        intros (y & Hy & _ & Hy'). injection Hy as <-. congruence.
      * rewrite (withdraw_accepted amount x a Hx Hle Hlt).
        destruct (updated_balance_ok (PyFloat (- x)) (- x) a eq_refl)
          as (a2 & Hrun2 & _).
        rewrite Hrun2.
        repeat split; try (intros e a' H; discriminate);
          try (intros _; now exists x); try (intros _; now exists a1);
          try (intros _; now exists a2).
Qed.

(** X3 on Account(1001, 5001, 100.0): [deposit(float("nan"))] is
    accepted, and what [deposit(None)] raises is a [ValueError]. *)
Lemma transactions_raise_value_errors_witness :
  (exists a', deposit (PyFloat nan) (account_1001 100) = (Return tt, a'))
  /\ (exists msg,
        ValueError "Deposit amount: None must be numeric." = ValueError msg).
Proof.
  split.
  - apply (proj2 (proj1 (proj2 (proj2 (transactions_raise_value_errors
                                         (account_1001 100) (PyFloat nan)))))).
    exists nan. split; reflexivity.
  - apply (proj1 (transactions_raise_value_errors (account_1001 100) PyNone)
             _ (account_1001 100)).
    reflexivity.
Defined.

(** *** How much an operation publishes *)

Lemma announcements_at_most_one (amount : value) (a : account) :
  (List.length (announcements amount a) <= 1)%nat.
Proof.
  unfold announcements.
  destruct (balance a <? LOW_BALANCE_LEVEL) eqn:Hlow.
  - rewrite (low_excludes_large _ Hlow). simpl. lia.
  - destruct (LARGE_TRANSACTION_THRESHOLD <? balance a); simpl; lia.
Qed.

(** What an operation adds to the published messages. *)
Lemma perform_publishes (op : operation) (a : account) :
  exists new,
    published (snd (perform op a)) = (published a ++ new)%list
    /\ (List.length new <= 1)%nat.
Proof.
  assert (Hupd : forall amount x, float_of amount = inr x ->
            exists new,
              published (snd (updated_balance amount a)) = (published a ++ new)%list
              /\ (List.length new <= 1)%nat).
  { intros amount x Hx.
    destruct (updated_balance_ok amount x a Hx) as (a' & Hrun & _ & _ & Hpub).
    rewrite Hrun. simpl. eexists. split; [exact Hpub | ].
    apply announcements_at_most_one. }
  assert (Hsame : forall r : outcome unit,
            exists new,
              published (snd (r, a)) = (published a ++ new)%list
              /\ (List.length new <= 1)%nat).
  { intros r. exists []. simpl. rewrite app_nil_r. split; [reflexivity | lia]. }
  destruct op as [amount | amount | amount]; simpl;
    destruct (float_of amount) as [e | x] eqn:Hx.
  - rewrite (deposit_not_numeric amount e a Hx). apply Hsame.
  - destruct (x <=? 0) eqn:Hle.
    + rewrite (deposit_not_positive amount x a Hx Hle). apply Hsame.
    + rewrite (deposit_accepted amount x a Hx Hle). now apply (Hupd _ x).
  - rewrite (withdraw_not_numeric amount e a Hx). apply Hsame.
  - destruct (x <=? 0) eqn:Hle.
    + rewrite (withdraw_not_positive amount x a Hx Hle). apply Hsame.
    + destruct (balance a <? x) eqn:Hlt.
      * rewrite (withdraw_exceeds amount x a Hx Hle Hlt). apply Hsame.
      * rewrite (withdraw_accepted amount x a Hx Hle Hlt). now apply (Hupd _ (- x)).
  - rewrite (updated_balance_rejected amount e a Hx). apply Hsame.
  - now apply (Hupd _ x).
Qed.

(** X4: an operation publishes at most one message, never the low-balance
    and the large-transaction message together, since no float is both
    below 50.0 and above 9999.99; what was published before stays, in its
    order, and a sequence of n operations adds at most n messages. *)
Theorem publishes_at_most_one :
  (forall op a,
     exists new,
       published (snd (perform op a)) = (published a ++ new)%list
       /\ (List.length new <= 1)%nat)
  /\ (forall ops a,
        exists new,
          published (perform_all ops a) = (published a ++ new)%list
          /\ (List.length new <= List.length ops)%nat)
  /\ (forall amount a,
        ~ (In (low_balance_message a) (announcements amount a)
           /\ In (large_transaction_message amount a) (announcements amount a))).
Proof.
  split; [exact perform_publishes | split].
  - intros ops. induction ops as [ | op ops IH]; intros a; simpl.
    + exists []. rewrite app_nil_r. split; [reflexivity | simpl; lia].
    + destruct (perform_publishes op a) as (new1 & Hpub1 & Hlen1).
      destruct (IH (snd (perform op a))) as (new2 & Hpub2 & Hlen2).
      exists (new1 ++ new2)%list. rewrite Hpub2, Hpub1, app_assoc.
      split; [reflexivity | rewrite length_app; lia].
  - intros amount a [Hlow Hlarge].
    apply in_announcements_low in Hlow.
    apply in_announcements_large in Hlarge.
    apply low_excludes_large in Hlow. congruence.
Qed.

(** *** A balance that is NaN *)

Lemma nan_plus (x y : float) : is_nan x = true -> is_nan (x + y) = true.
Proof.
  rewrite !is_nan_spec, add_spec.
  destruct (Prim2SF x); try discriminate. reflexivity.
Qed.

Lemma nan_is_not_below (x y : float) : is_nan x = true -> (x <? y) = false.
Proof.
  rewrite is_nan_spec, ltb_spec.
  destruct (Prim2SF x); try discriminate. reflexivity.
Qed.

Lemma nothing_is_below_nan (x y : float) : is_nan x = true -> (y <? x) = false.
Proof.
  rewrite is_nan_spec, ltb_spec.
  destruct (Prim2SF x); try discriminate.
  intros _. unfold SFltb. now destruct (Prim2SF y).
Qed.

Lemma nan_announces_nothing (amount : value) (a : account) :
  is_nan (balance a) = true -> announcements amount a = [].
Proof.
  intros H. unfold announcements.
  now rewrite (nan_is_not_below _ _ H), (nothing_is_below_nan _ _ H).
Qed.

Lemma nan_stays (op : operation) (a : account) :
  is_nan (balance a) = true ->
  is_nan (balance (snd (perform op a))) = true
  /\ published (snd (perform op a)) = published a.
Proof.
  intros Hnan.
  assert (Hupd : forall amount x, float_of amount = inr x ->
            is_nan (balance (snd (updated_balance amount a))) = true
            /\ published (snd (updated_balance amount a)) = published a).
  { intros amount x Hx.
    destruct (updated_balance_ok amount x a Hx) as (a' & Hrun & Hbal & _ & Hpub).
    rewrite Hrun. simpl.
    assert (Hnan' : is_nan (balance a') = true)
      by (rewrite Hbal; now apply nan_plus).
    split; [exact Hnan' | ].
    now rewrite Hpub, (nan_announces_nothing _ _ Hnan'), app_nil_r. }
  destruct op as [amount | amount | amount]; simpl;
    destruct (float_of amount) as [e | x] eqn:Hx.
  - now rewrite (deposit_not_numeric amount e a Hx).
  - destruct (x <=? 0) eqn:Hle.
    + now rewrite (deposit_not_positive amount x a Hx Hle).
    + rewrite (deposit_accepted amount x a Hx Hle). now apply (Hupd _ x).
  - now rewrite (withdraw_not_numeric amount e a Hx).
  - destruct (x <=? 0) eqn:Hle.
    + now rewrite (withdraw_not_positive amount x a Hx Hle).
    + rewrite (withdraw_accepted amount x a Hx Hle (nan_is_not_below _ _ Hnan)).
      now apply (Hupd _ (- x)).
  - now rewrite (updated_balance_rejected amount e a Hx).
  - now apply (Hupd _ x).
Qed.

(** X5: a balance that is NaN stays NaN: whatever operations follow, the
    balance is NaN after them and none of them publishes anything; and in
    that state [withdraw] accepts every amount x for which x <= 0 is
    false, however large, because balance < x is false. *)
Theorem nan_balance_is_absorbing :
  (forall ops a,
     is_nan (balance a) = true ->
     is_nan (balance (perform_all ops a)) = true
     /\ published (perform_all ops a) = published a)
  /\ (forall a amount x,
        is_nan (balance a) = true ->
        float_of amount = inr x -> (x <=? 0) = false ->
        exists a', withdraw amount a = (Return tt, a')).
Proof.
  split.
  - intros ops. induction ops as [ | op ops IH]; intros a Hnan; simpl.
    + now split.
    + destruct (nan_stays op a Hnan) as [Hnan' Hpub'].
      destruct (IH _ Hnan') as [Hnan'' Hpub'']. split; [exact Hnan'' | congruence].
  - intros a amount x Hnan Hx Hle.
    rewrite (withdraw_accepted amount x a Hx Hle (nan_is_not_below _ _ Hnan)).
    destruct (updated_balance_ok (PyFloat (- x)) (- x) a eq_refl) as (a' & Hrun & _).
    now exists a'.
Qed.

(** X5 on Account(1001, 5001, NaN), which Account(1001, 5001, "nan")
    constructs: after [deposit(20000)], [withdraw(1e300)] and
    [updated_balance(-5)] the balance is NaN and nothing is published. *)
Lemma nan_balance_is_absorbing_witness :
  (exists i, construct (PyInt 1001) (PyInt 5001) (PyStr "nan") None = Return i
             /\ account_of i = Some (account_1001 nan))
  /\ is_nan (balance (perform_all [Deposit (PyInt 20000);
                                   Withdraw (PyFloat 1e300);
                                   UpdatedBalance (PyInt (-5))]
                        (account_1001 nan))) = true
  /\ published (perform_all [Deposit (PyInt 20000);
                             Withdraw (PyFloat 1e300);
                             UpdatedBalance (PyInt (-5))]
                  (account_1001 nan)) = published (account_1001 nan).
Proof.
  split; [eexists; split; vm_compute; reflexivity | ].
  apply (proj1 nan_balance_is_absorbing). reflexivity.
Defined.

(** *** The levels themselves, and an emptied account *)

(** X6: the two tests are strict. An update publishes nothing exactly
    when the new balance is neither below 50.0 nor above 9999.99; so a
    new balance between the two, 50.0 and 9999.99 themselves included,
    is announced to nobody. *)
Theorem quiet_between_levels (a : account) (amount : value) (x : float) :
  float_of amount = inr x ->
  (forall a', updated_balance amount a = (Return tt, a') ->
     (published a' = published a
      <-> (balance a' <? LOW_BALANCE_LEVEL) = false
          /\ (LARGE_TRANSACTION_THRESHOLD <? balance a') = false))
  /\ ((LOW_BALANCE_LEVEL <=? balance a + x) = true ->
      (balance a + x <=? LARGE_TRANSACTION_THRESHOLD) = true ->
      exists a', updated_balance amount a = (Return tt, a')
                 /\ balance a' = balance a + x
                 /\ published a' = published a).
Proof.
  intros Hx.
  destruct (updated_balance_ok amount x a Hx) as (a0 & Hrun & Hbal & _ & Hpub).
  split.
  - intros a' Hrun'. rewrite Hrun in Hrun'. injection Hrun' as <-.
    rewrite Hpub. split.
    + intros H.
      assert (H' : announcements amount a0 = []).
      { apply (app_inv_head (published a)). now rewrite app_nil_r. }
      unfold announcements in H'.
      destruct (balance a0 <? LOW_BALANCE_LEVEL);
        destruct (LARGE_TRANSACTION_THRESHOLD <? balance a0);
        simpl in H'; try discriminate. now split.
    + intros [Hl Hg]. unfold announcements. rewrite Hl, Hg. simpl.
      now rewrite app_nil_r.
  - intros Hlow Hlarge. exists a0. split; [exact Hrun | split; [exact Hbal | ]].
    rewrite <- Hbal in Hlow, Hlarge.
    rewrite Hpub. unfold announcements.
    rewrite (leb_not_ltb _ _ Hlow), (leb_not_ltb _ _ Hlarge).
    simpl. now rewrite app_nil_r.
Qed.

(** X6 on Account(1001, 5001, 100.0): the update by -50.0 lands on 50.0
    and publishes nothing. *)
Lemma quiet_between_levels_witness :
  exists a', updated_balance (PyFloat (-50)) (account_1001 100) = (Return tt, a')
             /\ balance a' = 100 + -50
             /\ published a' = published (account_1001 100).
Proof.
  apply (proj2 (quiet_between_levels (account_1001 100) (PyFloat (-50)) (-50)
                  eq_refl)); reflexivity.
Defined.

Lemma minus_itself (b : float) : is_finite b = true -> b - b = 0.
Proof.
  rewrite is_finite_spec. intros Hb. apply Prim2SF_inj. rewrite sub_spec.
  replace (Prim2SF 0) with (S754_zero false) by (vm_compute; reflexivity).
  unfold SF64sub.
  destruct (Prim2SF b) as [[ | ] | s | | s m e]; try discriminate;
    try reflexivity.
  unfold SFsub. now rewrite Z.sub_diag.
Qed.

Lemma not_below_itself (x : float) : (x <? x) = false.
Proof.
  rewrite ltb_spec. unfold SFltb.
  destruct (Prim2SF x) as [[ | ] | [ | ] | | [ | ] m e]; try reflexivity;
    cbn [SFcompare]; rewrite Z.compare_refl, Pos.compare_cont_refl; reflexivity.
Qed.

(** X7: the whole balance can be withdrawn. When the balance is finite
    and above zero, [withdraw(balance)] returns, leaves exactly 0.0 and,
    0.0 being below 50.0, publishes "Low balance warning 0.0: on account
    {accountNumber}". *)
Theorem withdraw_everything (a : account) (amount : value) :
  float_of amount = inr (balance a) ->
  is_finite (balance a) = true -> (0 <? balance a) = true ->
  exists a',
    withdraw amount a = (Return tt, a')
    /\ balance a' = 0
    /\ published a'
       = (published a
          ++ [("Low balance warning 0.0: on account "
               ++ str (account_number a))%string])%list.
Proof.
  intros Hx Hfin Hpos.
  rewrite (withdraw_accepted amount _ a Hx (ltb_not_leb _ _ Hpos)
             (not_below_itself _)).
  destruct (updated_balance_ok (PyFloat (- balance a)) (- balance a) a eq_refl)
    as (a' & Hrun & Hbal & (Hnum & _) & Hpub).
  rewrite add_opp, (minus_itself _ Hfin) in Hbal.
  exists a'. split; [exact Hrun | split; [exact Hbal | ]].
  rewrite Hpub, announcements_low
    by (rewrite Hbal; vm_compute; reflexivity).
  unfold low_balance_message. rewrite Hbal, Hnum.
  replace (Text.repr_float 0) with "0.0"%string by (vm_compute; reflexivity).
  reflexivity.
Qed.

(** X7 on Account(1001, 5001, 100.0): [withdraw(100)] empties it. *)
Lemma withdraw_everything_witness :
  exists a',
    withdraw (PyInt 100) (account_1001 100) = (Return tt, a')
    /\ balance a' = 0
    /\ published a'
       = (published (account_1001 100)
          ++ [("Low balance warning 0.0: on account "
               ++ str (account_number (account_1001 100)))%string])%list.
Proof.
  apply (withdraw_everything (account_1001 100) (PyInt 100)); reflexivity.
Defined.

(** *** No overdraft *)

Module SignFacts.

Section Sign.

Variables prec emax : Z.

(** A mantissa of [d] binary digits lies in [2^(d-1), 2^d). *)
Lemma digits2_pos_bounds (m : positive) :
  (2 ^ (Z.pos (digits2_pos m) - 1) <= Z.pos m < 2 ^ Z.pos (digits2_pos m))%Z.
Proof.
  induction m as [p IH | p IH | ]; simpl digits2_pos.
  - rewrite Pos2Z.inj_succ, (Pos2Z.inj_xI p).
    replace (Z.succ (Z.pos (digits2_pos p)) - 1)%Z
      with (Z.succ (Z.pos (digits2_pos p) - 1)) by lia.
    rewrite !Z.pow_succ_r by lia. lia.
  - rewrite Pos2Z.inj_succ, (Pos2Z.inj_xO p).
    replace (Z.succ (Z.pos (digits2_pos p)) - 1)%Z
      with (Z.succ (Z.pos (digits2_pos p) - 1)) by lia.
    rewrite !Z.pow_succ_r by lia. lia.
  - simpl. lia.
Qed.

(** A canonical mantissa has at most [prec] digits, and exactly [prec]
    above the smallest exponent. *)
Lemma canonical_bounds (m : positive) (e : Z) :
  canonical_mantissa prec emax m e = true ->
  (SpecFloat.emin prec emax <= e
   /\ Z.pos m < 2 ^ prec
   /\ (SpecFloat.emin prec emax < e -> 2 ^ (prec - 1) <= Z.pos m))%Z.
Proof.
  unfold canonical_mantissa, fexp. intros H. apply Z.eqb_eq in H.
  pose proof (digits2_pos_bounds m) as [Hlo Hhi].
  set (d := Z.pos (digits2_pos m)) in *.
  assert (Hd : (d <= prec)%Z) by lia.
  split; [lia | split].
  - apply Z.lt_le_trans with (2 ^ d)%Z; [exact Hhi | ].
    apply Z.pow_le_mono_r; lia.
  - intros He. replace prec with d by lia. exact Hlo.
Qed.

Lemma iter_xO_value (m d : positive) :
  Z.pos (Pos.iter xO m d) = (Z.pos m * 2 ^ Z.pos d)%Z.
Proof.
  induction d as [ | d IH] using Pos.peano_ind.
  - simpl. lia.
  - rewrite Pos.iter_succ, (Pos2Z.inj_xO (Pos.iter xO m d)), IH,
      Pos2Z.inj_succ, Z.pow_succ_r by lia.
    lia.
Qed.

(** Aligning to a smaller exponent keeps the value. *)
Lemma shl_align_value (m : positive) (e ez : Z) :
  (ez <= e)%Z ->
  Z.pos (fst (shl_align m e ez)) = (Z.pos m * 2 ^ (e - ez))%Z.
Proof.
  intros H. unfold shl_align. destruct (ez - e)%Z as [ | p | p] eqn:Hd.
  - replace (e - ez)%Z with 0%Z by lia. simpl. lia.
  - lia.
  - replace (e - ez)%Z with (Z.pos p) by lia. simpl. apply iter_xO_value.
Qed.

(** On canonical positive floats the comparison is that of the values. *)
Lemma not_below_values (mx : positive) (ex : Z) (my : positive) (ey : Z) :
  bounded prec emax mx ex = true -> bounded prec emax my ey = true ->
  SFltb (S754_finite false mx ex) (S754_finite false my ey) = false ->
  (Z.pos my * 2 ^ (ey - Z.min ex ey) <= Z.pos mx * 2 ^ (ex - Z.min ex ey))%Z.
Proof.
  unfold bounded. intros Hx Hy. apply andb_true_iff in Hx, Hy.
  destruct Hx as [Hx _], Hy as [Hy _].
  apply canonical_bounds in Hx, Hy.
  destruct Hx as (Hex & Hmx & Hnx), Hy as (Hey & Hmy & Hny).
  unfold SFltb. cbn [SFcompare].
  destruct (Z.compare_spec ex ey) as [Heq | Hlt | Hgt].
  - subst ey. rewrite Z.min_id, Z.sub_diag, Z.pow_0_r, !Z.mul_1_r.
    change (PosDef.Pos.compare_cont Eq mx my) with (Pos.compare mx my).
    destruct (Pos.compare_spec mx my); try discriminate; lia.
  - discriminate.
  - intros _. rewrite Z.min_r by lia. rewrite Z.sub_diag, Z.pow_0_r, Z.mul_1_r.
    assert (H2 : (2 ^ 1 <= 2 ^ (ex - ey))%Z) by (apply Z.pow_le_mono_r; lia).
    assert (Hp : (0 < prec)%Z).
    { destruct (Z.le_gt_cases prec 0) as [Hle | ]; [ | assumption].
      exfalso. assert (H0 : (2 ^ prec <= 2 ^ 0)%Z)
        by (apply Z.pow_le_mono_r; lia).
      rewrite Z.pow_0_r in H0. lia. }
    assert (Hpp : (2 ^ prec = 2 * 2 ^ (prec - 1))%Z).
    { replace prec with (Z.succ (prec - 1)) at 1 by lia.
      apply Z.pow_succ_r. lia. }
    specialize (Hnx ltac:(lia)). rewrite Z.pow_1_r in H2. nia.
Qed.

Lemma binary_round_aux_not_negative (mx ex : Z) (lx : location) :
  SFnot_negative (binary_round_aux prec emax false mx ex lx) = true.
Proof.
  unfold binary_round_aux.
  destruct (shr_fexp prec emax mx ex lx) as [mrs' e'].
  destruct (shr_fexp prec emax _ e' loc_Exact) as [mrs'' e''].
  destruct (shr_m mrs''); try reflexivity.
  destruct (_ <=? _)%Z; reflexivity.
Qed.

(** Rounding what is not negative gives what is not negative. *)
Lemma binary_normalize_not_negative (m e : Z) :
  (0 <= m)%Z -> SFnot_negative (binary_normalize prec emax m e false) = true.
Proof.
  intros H. destruct m as [ | p | p]; [reflexivity | | lia].
  simpl. unfold binary_round. destruct (shl_align _ _ _).
  apply binary_round_aux_not_negative.
Qed.

(** Adding an amount above zero, or NaN, to a balance that is not
    negative. *)
Lemma SFadd_not_negative (x y : spec_float) :
  SFnot_negative x = true -> SFleb y (S754_zero false) = false ->
  SFnot_negative (SFadd prec emax x y) = true.
Proof.
  destruct x as [[ | ] | [ | ] | | [ | ] mx ex],
           y as [[ | ] | [ | ] | | [ | ] my ey];
    intros Hx Hy; try discriminate; try reflexivity.
  unfold SFadd. apply binary_normalize_not_negative. cbn [cond_Zopp]. lia.
Qed.

(** Taking away an amount above zero, or NaN, that the balance is not
    below: the balance is then above zero itself, or NaN. *)
Lemma SFtake_not_negative (x y : spec_float) :
  SpecFloat.valid_binary prec emax x = true ->
  SpecFloat.valid_binary prec emax y = true ->
  SFleb y (S754_zero false) = false -> SFltb x y = false ->
  SFnot_negative (SFadd prec emax x (SFopp y)) = true.
Proof.
  destruct x as [[ | ] | [ | ] | | [ | ] mx ex],
           y as [[ | ] | [ | ] | | [ | ] my ey];
    intros Vx Vy Hy Hlt; try discriminate; try reflexivity.
  simpl in Vx, Vy. pose proof (not_below_values mx ex my ey Vx Vy Hlt) as H.
  change (SFadd prec emax (S754_finite false mx ex)
            (SFopp (S754_finite false my ey)))
    with (binary_normalize prec emax
            (Z.pos (fst (shl_align mx ex (Z.min ex ey)))
             + - Z.pos (fst (shl_align my ey (Z.min ex ey))))%Z
            (Z.min ex ey) false).
  apply binary_normalize_not_negative.
  rewrite !shl_align_value by lia. lia.
Qed.

End Sign.

End SignFacts.

Import SignFacts.

Lemma not_negative_spec (f : float) :
  (f <? 0) = false <-> SFnot_negative (Prim2SF f) = true.
Proof.
  rewrite ltb_spec. unfold SFnot_negative.
  replace (Prim2SF 0) with (S754_zero false) by (vm_compute; reflexivity).
  destruct (SFltb (Prim2SF f) (S754_zero false)); simpl; intuition congruence.
Qed.

Lemma not_positive_spec (f : float) :
  (f <=? 0) = SFleb (Prim2SF f) (S754_zero false).
Proof.
  rewrite leb_spec.
  now replace (Prim2SF 0) with (S754_zero false) by (vm_compute; reflexivity).
Qed.

(** A float that is not negative plus an amount above zero, or NaN. *)
Lemma sum_not_negative (b x : float) :
  (b <? 0) = false -> (x <=? 0) = false -> (b + x <? 0) = false.
Proof.
  rewrite !not_negative_spec, not_positive_spec, add_spec.
  apply SFadd_not_negative.
Qed.

(** Whatever the balance, what is left of it after taking an amount
    above zero that it is not below is not negative. *)
Lemma rest_not_negative (b x : float) :
  (x <=? 0) = false -> (b <? x) = false -> (b + - x <? 0) = false.
Proof.
  rewrite not_negative_spec, not_positive_spec, ltb_spec, add_spec, opp_spec.
  apply SFtake_not_negative; apply Prim2SF_valid.
Qed.

Lemma transaction_keeps_not_negative (op : operation) (a : account) :
  is_transaction op = true -> (balance a <? 0) = false ->
  (balance (snd (perform op a)) <? 0) = false.
Proof.
  intros Hop Hb. destruct op as [amount | amount | amount];
    try discriminate; simpl;
    destruct (float_of amount) as [e | x] eqn:Hx.
  - now rewrite (deposit_not_numeric amount e a Hx).
  - destruct (x <=? 0) eqn:Hle.
    + now rewrite (deposit_not_positive amount x a Hx Hle).
    + rewrite (deposit_accepted amount x a Hx Hle).
      destruct (updated_balance_ok (PyFloat x) x a eq_refl)
        as (a' & Hrun & Hbal & _).
      rewrite Hrun. simpl. rewrite Hbal. now apply sum_not_negative.
  - now rewrite (withdraw_not_numeric amount e a Hx).
  - destruct (x <=? 0) eqn:Hle.
    + now rewrite (withdraw_not_positive amount x a Hx Hle).
    + destruct (balance a <? x) eqn:Hlt.
      * now rewrite (withdraw_exceeds amount x a Hx Hle Hlt).
      * rewrite (withdraw_accepted amount x a Hx Hle Hlt).
        destruct (updated_balance_ok (PyFloat (- x)) (- x) a eq_refl)
          as (a' & Hrun & Hbal & _).
        rewrite Hrun. simpl. rewrite Hbal. now apply rest_not_negative.
Qed.

(** X8: no overdraft. A withdrawal that returns leaves a balance that is
    not below zero, whatever the balance was; and deposits and
    withdrawals, in any number and order and whether they return or
    raise, never take a balance that is not below zero below zero. (A
    direct [updated_balance] by a negative amount can.) *)
Theorem no_overdraft :
  (forall a amount a',
     withdraw amount a = (Return tt, a') -> (balance a' <? 0) = false)
  /\ (forall ops a,
        forallb is_transaction ops = true -> (balance a <? 0) = false ->
        (balance (perform_all ops a) <? 0) = false)
  /\ (exists a', updated_balance (PyInt (-500)) (account_1001 100) = (Return tt, a')
                 /\ (balance a' <? 0) = true).
Proof.
  split; [ | split].
  - intros a amount a' Hrun.
    destruct (float_of amount) as [e | x] eqn:Hx.
    + rewrite (withdraw_not_numeric amount e a Hx) in Hrun. discriminate.
    + destruct (x <=? 0) eqn:Hle.
      * rewrite (withdraw_not_positive amount x a Hx Hle) in Hrun. discriminate.
      * destruct (balance a <? x) eqn:Hlt.
        -- rewrite (withdraw_exceeds amount x a Hx Hle Hlt) in Hrun. discriminate.
        -- destruct (withdraw_returns a a' amount x Hx Hrun) as [Hbal _].
           rewrite Hbal. now apply rest_not_negative.
  - intros ops. induction ops as [ | op ops IH]; intros a Hops Hb; simpl.
    + exact Hb.
    + simpl in Hops. apply andb_true_iff in Hops. destruct Hops as [Hop Hops].
      apply IH; [exact Hops | ]. now apply transaction_keeps_not_negative.
  - eexists. split; vm_compute; reflexivity.
Qed.

(** X8 on Account(1001, 5001, 100.0): after [withdraw(60)],
    [withdraw(60)] (refused), [deposit(5)] and [withdraw(45)] the balance
    is not below zero. *)
Lemma no_overdraft_witness :
  (balance (perform_all [Withdraw (PyInt 60); Withdraw (PyInt 60);
                         Deposit (PyInt 5); Withdraw (PyInt 45)]
              (account_1001 100)) <? 0) = false.
Proof.
  apply (proj1 (proj2 no_overdraft)); reflexivity.
Defined.

(** *** The accounts that can be reached *)

(** X9: every account that construction returns, and every state it
    reaches by any operations (returning or raising), carries the account
    number and the client number given to the constructor, both of them
    integers, and the creation date it was given or 1970-01-01; a new
    account has published nothing. *)
Theorem reachable_identity (a c b : value) (d : option date) (i : instance)
    (ops : list operation) :
  construct a c b d = Return i ->
  exists acct,
    account_of i = Some acct
    /\ published acct = []
    /\ account_number (perform_all ops acct) = a
    /\ client_number (perform_all ops acct) = c
    /\ isinstance_int (account_number (perform_all ops acct)) = true
    /\ isinstance_int (client_number (perform_all ops acct)) = true
    /\ date_created (perform_all ops acct)
       = match d with Some d' => d' | None => epoch end.
Proof.
  intros Hrun.
  assert (Hid : forall ops acct, same_identity acct (perform_all ops acct)).
  { intros ops'. induction ops' as [ | op ops' IH]; intros acct; simpl.
    - apply same_identity_refl.
    - eapply same_identity_trans; [apply perform_same_identity | apply IH]. }
  revert Hrun. run_init.
  destruct (isinstance_int a) eqn:Ha; [ | discriminate].
  destruct (isinstance_int c) eqn:Hc; [ | discriminate].
  destruct (float_of b) as [e | x] eqn:Hb; [discriminate | ].
  cbn. intros Hrun. injection Hrun as <-. cbn. eexists. split; [reflexivity | ].
  match goal with
  | |- context [perform_all ops ?acct] =>
      destruct (Hid ops acct) as (Hn & Hcl & Hd)
  end.
  cbn in Hn, Hcl, Hd. rewrite Hn, Hcl, Hd. now repeat split.
Qed.

(** X9 on Account(1001, 5001, 100.0) after [deposit(10000)] and
    [withdraw("abc")]. *)
Lemma reachable_identity_witness :
  exists acct,
    account_of {| i_date_created := Some epoch;
                  i_account_number := Some (PyInt 1001);
                  i_client_number := Some (PyInt 5001);
                  i_balance := Some 100 |} = Some acct
    /\ published acct = []
    /\ account_number
         (perform_all [Deposit (PyInt 10000); Withdraw (PyStr "abc")] acct)
       = PyInt 1001
    /\ client_number
         (perform_all [Deposit (PyInt 10000); Withdraw (PyStr "abc")] acct)
       = PyInt 5001
    /\ isinstance_int
         (account_number
            (perform_all [Deposit (PyInt 10000); Withdraw (PyStr "abc")] acct))
       = true
    /\ isinstance_int
         (client_number
            (perform_all [Deposit (PyInt 10000); Withdraw (PyStr "abc")] acct))
       = true
    /\ date_created
         (perform_all [Deposit (PyInt 10000); Withdraw (PyStr "abc")] acct)
       = epoch.
Proof.
  apply (reachable_identity (PyInt 1001) (PyInt 5001) (PyFloat 100) None).
  reflexivity.
Defined.
